(** * Agent dark pool proxy: the [submit] entrypoint of [src/index.ts]

    A shallow embedding of the two zod schemas and of the entrypoint's
    [handler], with the properties of the handler's result, of its outbound
    request and of the [payment_amount] pattern. *)

From Stdlib Require Import String Ascii List Bool Arith NArith Lia PrimFloat.
From Stdlib Require Import DecimalString.
From Stdlib Require Import DecimalPos DecimalN.
Import ListNotations.

Local Open Scope string_scope.
Local Open Scope list_scope.
Set Warnings "-register-all".
Set Implicit Arguments.

(** ** JavaScript values *)

Module JS.

(** The values the handler handles: what [response.json()] yields (a JSON
    value), plus [undefined], which a property read of a missing key gives.
    Numbers are IEEE binary64, as in the language.  An object is the list of its
    own properties in insertion order. *)
Inductive value : Type :=
| VUndefined
| VNull
| VBool (b : bool)
| VNum (x : float)
| VStr (s : string)
| VArr (items : list value)
| VObj (props : list (string * value)).

(** ToBoolean: [undefined], [null], [false], [+0], [-0], [NaN] and the empty
    string are falsy, everything else (every array and object too) is truthy. *)
Definition truthy (v : value) : bool :=
  match v with
  | VUndefined | VNull => false
  | VBool b => b
  | VNum x => negb (PrimFloat.eqb x 0%float) && PrimFloat.eqb x x
  | VStr s => negb (String.eqb s "")
  | VArr _ | VObj _ => true
  end.

(** [a || b] *)
Definition or_else (a b : value) : value := if truthy a then a else b.

(** Own-property lookup in a property list: a later binding of a key
    overrides an earlier one, as in an object literal and in [JSON.parse]. *)
Fixpoint lookup (k : string) (props : list (string * value)) : option value :=
  match props with
  | [] => None
  | (k', v) :: rest =>
      match lookup k rest with
      | Some w => Some w
      | None => if String.eqb k k' then Some v else None
      end
  end.

(** [v.k] on a value other than [null] and [undefined], for a key that no
    built-in prototype defines: an object's own property, else [undefined]. *)
Definition own_prop (v : value) (k : string) : value :=
  match v with
  | VObj props =>
      match lookup k props with Some w => w | None => VUndefined end
  | _ => VUndefined
  end.

(** [v == null]: a property read on such a value throws. *)
Definition nullish (v : value) : bool :=
  match v with VUndefined | VNull => true | _ => false end.

(** [typeof v === "string"] and [typeof v === "boolean"] *)
Definition is_string (v : value) : bool :=
  match v with VStr _ => true | _ => false end.

Definition is_boolean (v : value) : bool :=
  match v with VBool _ => true | _ => false end.

(** A thrown [Error] object: [fetch] and [response.json()] reject with
    [TypeError], [SyntaxError] or [DOMException] instances, whose [message]
    is a string. *)
Record error : Type := mkError { name : string; message : string }.

End JS.

Import JS.

(** ** Regular expressions, as far as the schema uses them *)

Module RegExp.

(** The pattern syntax of [/^\d+\.\d{2}$/]: the two assertions, the digit
    class, an escaped literal, concatenation, [+] and [{n}]. *)
Inductive regex : Type :=
| Start                         (* ^ *)
| End_                          (* $ *)
| Digit                         (* \d *)
| Lit (c : ascii)               (* an escaped or plain character *)
| Seq (r1 r2 : regex)
| Plus (r : regex)              (* r+ *)
| Count (r : regex) (n : nat).  (* r{n} *)

(** [\d] without the [u] flag is exactly [0-9].  A character here is one
    code unit of the subject; those beyond the 8-bit range behave like any
    other character that is neither a digit nor the point. *)
Definition is_digit (c : ascii) : bool :=
  let n := nat_of_ascii c in ((48 <=? n) && (n <=? 57))%nat.

(** A position in the subject: how many characters lie before it, and the
    characters from it on. *)
Definition pos : Type := nat * list ascii.

(** [r+]: one match of [r], then as many more as wanted; an iteration that
    consumes nothing is not repeated.  [fuel] bounds the iterations by the
    characters left. *)
Fixpoint plus_ends (one : pos -> list pos) (fuel : nat) (p : pos) : list pos :=
  match fuel with
  | 0 => []
  | S fuel' =>
      flat_map
        (fun q => q :: (if (length (snd q) <? length (snd p))%nat
                        then plus_ends one fuel' q else []))
        (one p)
  end.

(** All positions at which a match of [r] that starts at [p] can end.  No
    flag is set: [^] holds only before the first character and [$] only
    after the last one. *)
Fixpoint ends (r : regex) (p : pos) : list pos :=
  match r with
  | Start => if (fst p =? 0)%nat then [p] else []
  | End_ => match snd p with [] => [p] | _ :: _ => [] end
  | Digit =>
      match snd p with
      | c :: rest => if is_digit c then [(S (fst p), rest)] else []
      | [] => []
      end
  | Lit a =>
      match snd p with
      | c :: rest => if Ascii.eqb c a then [(S (fst p), rest)] else []
      | [] => []
      end
  | Seq r1 r2 => flat_map (ends r2) (ends r1 p)
  | Plus r1 => plus_ends (ends r1) (S (length (snd p))) p
  | Count r1 n => Nat.iter n (flat_map (ends r1)) [p]
  end.

(** Every position of the subject from which a search may start. *)
Fixpoint starts (i : nat) (s : list ascii) : list pos :=
  (i, s) :: match s with [] => [] | _ :: rest => starts (S i) rest end.

(** Is there an end position at all? *)
Definition matched (qs : list pos) : bool :=
  match qs with [] => false | _ :: _ => true end.

(** [r.test(s)]: is there a match starting anywhere in [s]? *)
Definition test (r : regex) (s : string) : bool :=
  existsb (fun p => matched (ends r p)) (starts 0 (list_ascii_of_string s)).

End RegExp.

Import RegExp.

(** ** zod schemas *)

Module Zod.

(** The checks chained on [z.string()] in this file's schemas that decide
    on the text alone. *)
Inductive string_check : Type :=
| min (n : nat)
| regex_ (r : regex).

Inductive schema : Type :=
| boolean
| string_ (checks : list string_check)
| optional (inner : schema)
| object (shape : list (string * schema)).

Definition check_ok (s : string) (c : string_check) : bool :=
  match c with
  | min n => (n <=? String.length s)%nat
  | regex_ r => RegExp.test r s
  end.

(** [schema.safeParse(v).success].  An object schema reads each key of its
    shape from the value ([undefined] when missing) and ignores other keys. *)
Fixpoint accepts (sch : schema) (v : value) : bool :=
  match sch with
  | boolean => is_boolean v
  | string_ checks =>
      match v with
      | VStr s => forallb (check_ok s) checks
      | _ => false
      end
  | optional inner =>
      match v with
      | VUndefined => true
      | _ => accepts inner v
      end
  | object shape =>
      match v with
      | VObj _ =>
          (fix fields (sh : list (string * schema)) : bool :=
             match sh with
             | [] => true
             | (k, s) :: rest =>
                 accepts s (own_prop v k) && fields rest
             end) shape
      | _ => false
      end
  end.

End Zod.

(** The [payment_amount] field of [DarkPoolSubmitInputSchema]:
    [z.string().regex(/^\d+\.\d{2}$/)]. *)
Definition payment_amount_pattern : regex :=
  Seq Start (Seq (Plus Digit) (Seq (Lit ".") (Seq (Count Digit 2) End_))).

Definition payment_amount_schema : Zod.schema :=
  Zod.string_ [Zod.regex_ payment_amount_pattern].

(** The [agent_id] field: [z.string().min(1)]. *)
Definition agent_id_schema : Zod.schema := Zod.string_ [Zod.min 1].

Definition DarkPoolSubmitOutputSchema : Zod.schema :=
  Zod.object
    [ ("success", Zod.boolean);
      ("transaction_id", Zod.optional (Zod.string_ []));
      ("message", Zod.string_ []);
      ("estimated_execution", Zod.optional (Zod.string_ [])) ].

(** ** The runtime the handler runs against *)

Module Runtime.

(** How a computation ends: with a value, or by throwing. *)
Inductive completion (A : Type) : Type :=
| Normal (a : A)
| Throw (e : error).

Arguments Normal {A} a.
Arguments Throw {A} e.

(** The text [JSON.stringify(v)] yields.  The serialiser belongs to the
    engine; the text is kept as the value it was made from. *)
Inductive json_text : Type :=
| JSON_stringify (v : value).

(** The two arguments of [fetch]: the URL and the init object. *)
Record request : Type := mkRequest {
  url : string;
  method : string;
  headers : list (string * string);
  body : json_text
}.

(** What the handler reads of a [Response]: its status and what its
    [json()] promise settles to (a parsed value, or a rejection when the body
    cannot be read or is not JSON). *)
Record response : Type := mkResponse {
  status : N;
  json : completion value
}.

(** [response.ok]: the status is in the range 200-299. *)
Definition ok (r : response) : bool :=
  ((200 <=? status r) && (status r <=? 299))%N.

(** The world outside the handler: the remote end ([fetch] settles to a
    response or rejects), the requests sent so far, oldest first, and what
    was written with [console.error]. *)
Record world : Type := mkWorld {
  backend : request -> completion response;
  outbound : list request;
  console : list (string * error)
}.

(** Computations that read and change the world and may throw. *)
Definition M (A : Type) : Type := world -> completion A * world.

Definition ret {A} (a : A) : M A := fun w => (Normal a, w).

Definition throw {A} (e : error) : M A := fun w => (Throw e, w).

Definition bind {A B} (m : M A) (k : A -> M B) : M B :=
  fun w =>
    match m w with
    | (Normal a, w') => k a w'
    | (Throw e, w') => (Throw e, w')
    end.

(** [try { m } catch (error) { h error }] *)
Definition try_catch {A} (m : M A) (h : error -> M A) : M A :=
  fun w =>
    match m w with
    | (Normal a, w') => (Normal a, w')
    | (Throw e, w') => h e w'
    end.

(** The world once [rq] has gone out. *)
Definition sent (rq : request) (w : world) : world :=
  {| backend := backend w;
     outbound := (outbound w ++ [rq])%list;
     console := console w |}.

(** [await fetch(url, init)]: the request goes out, then the promise
    settles as the remote end decides. *)
Definition fetch (rq : request) : M response :=
  fun w => (backend w rq, sent rq w).

(** [await response.json()] *)
Definition response_json (r : response) : M value :=
  fun w => (json r, w).

(** The world once [label] and [e] have been written to the error log. *)
Definition logged (label : string) (e : error) (w : world) : world :=
  {| backend := backend w;
     outbound := outbound w;
     console := (console w ++ [(label, e)])%list |}.

(** [console.error(label, error)] *)
Definition console_error (label : string) (e : error) : M unit :=
  fun w => (Normal tt, logged label e w).

(** The [TypeError] of a property read on [null] or [undefined]; the wording
    is the engine's. *)
Definition cannot_read (v : value) (k : string) : error :=
  {| name := "TypeError";
     message := "Cannot read properties of "
                ++ (match v with VNull => "null" | _ => "undefined" end)
                ++ " (reading '" ++ k ++ "')" |}.

(** [v.k] for the keys the handler reads ([error], [success],
    [transaction_id], [message], [estimated_execution]), none of which is on
    a built-in prototype: [null] and [undefined] throw, any other value
    gives its own property or [undefined]. *)
Definition get_prop (v : value) (k : string) : M value :=
  if nullish v then throw (cannot_read v k) else ret (own_prop v k).

(** A number's decimal text, as a template literal prints an integer. *)
Definition to_string (n : N) : string :=
  NilZero.string_of_uint (N.to_uint n).

End Runtime.

Import Runtime.

Declare Scope js_scope.
Delimit Scope js_scope with js.
Notation "x <- m ;; k" := (bind m (fun x => k))
  (at level 61, m at next level, right associativity) : js_scope.
Notation "m ;;; k" := (bind m (fun _ => k))
  (at level 61, right associativity) : js_scope.

(** ** The entrypoint *)

(** [process.env], as far as the handler reads it. *)
Record process_env : Type := mkEnv {
  CLOUDFLARE_BACKEND : option string;
  INTERNAL_API_KEY : option string
}.

(** A variable of the environment as a condition sees it: unset and the
    empty string are both falsy. *)
Definition set_and_nonempty (v : option string) : option string :=
  match v with
  | Some "" => None
  | Some s => Some s
  | None => None
  end.

(** The handler's [input], already parsed by [DarkPoolSubmitInputSchema]. *)
Record SubmitInput : Type := mkInput {
  agent_id : string;
  target_endpoint : string;
  request_payload : list (string * value);
  payment_amount : string
}.

Record Usage : Type := mkUsage { total_tokens : N }.

(** What the handler returns: [{ output, usage }]. *)
Record HandlerResult : Type := mkResult {
  output : value;
  usage : Usage
}.

Definition default_backend : string :=
  "https://agent-dark-pool.pulseradar.workers.dev".

(** The request of lines 83-95. *)
Definition submit_request (base apiKey : string) (input : SubmitInput)
  : request :=
  {| url := base ++ "/submit";
     method := "POST";
     headers := [ ("Content-Type", "application/json");
                  ("X-Internal-API-Key", apiKey) ];
     body := JSON_stringify
               (VObj [ ("agent_id", VStr (agent_id input));
                       ("target_endpoint", VStr (target_endpoint input));
                       ("request_payload", VObj (request_payload input));
                       ("payment_amount", VStr (payment_amount input)) ]) |}.

(** [process.env.CLOUDFLARE_BACKEND || "https://..."] *)
Definition backendUrl (env : process_env) : string :=
  match set_and_nonempty (CLOUDFLARE_BACKEND env) with
  | Some u => u
  | None => default_backend
  end.

Definition handler (env : process_env) (input : SubmitInput)
  : M HandlerResult :=
  match set_and_nonempty (INTERNAL_API_KEY env) with
  | None =>
      ret {| output :=
               VObj [ ("success", VBool false);
                      ("message",
                       VStr "Service misconfigured: Missing API key") ];
             usage := {| total_tokens := 10 |} |}
  | Some apiKey =>
      try_catch
        (response <- fetch (submit_request (backendUrl env) apiKey input) ;;
         data <- response_json response ;;
         if negb (ok response) then
           data_error <- get_prop data "error" ;;
           ret {| output :=
                    VObj [ ("success", VBool false);
                           ("message",
                            or_else data_error
                              (VStr ("Backend error: "
                                     ++ to_string (status response)))) ];
                  usage := {| total_tokens := 10 |} |}
         else
           data_success <- get_prop data "success" ;;
           data_transaction_id <- get_prop data "transaction_id" ;;
           data_message <- get_prop data "message" ;;
           data_estimated_execution <- get_prop data "estimated_execution" ;;
           ret {| output :=
                    VObj [ ("success", data_success);
                           ("transaction_id", data_transaction_id);
                           ("message",
                            or_else data_message
                              (VStr "Transaction submitted to dark pool"));
                           ("estimated_execution",
                            data_estimated_execution) ];
                  usage := {| total_tokens := 50 |} |})%js
        (fun error =>
           (console_error "Error forwarding to backend:" error ;;;
            ret {| output :=
                     VObj [ ("success", VBool false);
                            ("message",
                             VStr ("Failed to submit transaction: "
                                   ++ JS.message error)) ];
                   usage := {| total_tokens := 10 |} |})%js)
  end.

(** ** The specification's wording, for comparison with the code *)

Module Spec.

(** "integer part, decimal point, exactly two fractional digits" *)
Definition two_decimal_amount (s : string) : Prop :=
  exists (ip : list ascii) (d1 d2 : ascii),
    ip <> [] /\ forallb is_digit ip = true /\
    is_digit d1 = true /\ is_digit d2 = true /\
    list_ascii_of_string s = (ip ++ ["."%char; d1; d2])%list.

(** "message = backend-supplied error field if present, else a generated
    Backend error: <status code>" *)
Definition nonsuccess_message (st : N) (data : value) : value :=
  match data with
  | VObj props =>
      match lookup "error" props with
      | Some v => v
      | None => VStr ("Backend error: " ++ to_string st)
      end
  | _ => VStr ("Backend error: " ++ to_string st)
  end.

(** "message = backend-supplied message or a generated default", read as
    the claim words it: the field if present, else the default. *)
Definition success_message (props : list (string * value)) : value :=
  match lookup "message" props with
  | Some v => v
  | None => VStr "Transaction submitted to dark pool"
  end.

End Spec.

(** ** Scenarios *)

(** A remote end that answers every request with one status and body. *)
Definition replies (st : N) (j : completion value)
  : request -> completion response :=
  fun _ => Normal {| status := st; json := j |}.

(** A remote end that cannot be reached. *)
Definition unreachable (e : error) : request -> completion response :=
  fun _ => Throw e.

(** A world in which nothing has been sent or logged yet. *)
Definition fresh (be : request -> completion response) : world :=
  {| backend := be; outbound := []; console := [] |}.

Definition env_with_key : process_env :=
  {| CLOUDFLARE_BACKEND := None; INTERNAL_API_KEY := Some "s3cret" |}.

Definition env_without_key : process_env :=
  {| CLOUDFLARE_BACKEND := Some "https://pool.example";
     INTERNAL_API_KEY := None |}.

Definition sample_input : SubmitInput :=
  {| agent_id := "agent-7";
     target_endpoint := "https://api.example/pay";
     request_payload := [("memo", VStr "hi"); ("urgent", VBool true)];
     payment_amount := "10.00" |}.

Definition ECONNREFUSED : error :=
  {| name := "TypeError"; message := "ECONNREFUSED" |}.

(** What a run returned, and one key of a returned output. *)
Definition returned {A} (run : completion A * world) : option A :=
  match fst run with
  | Normal a => Some a
  | Throw _ => None
  end.

Definition output_field (k : string) (h : HandlerResult) : value :=
  own_prop (output h) k.

(** The three failure results and the forwarded result, as the handler
    builds them. *)
Definition failure (msg : value) : HandlerResult :=
  {| output := VObj [("success", VBool false); ("message", msg)];
     usage := {| total_tokens := 10 |} |}.

Definition relayed (data : value) : HandlerResult :=
  {| output :=
       VObj [ ("success", own_prop data "success");
              ("transaction_id", own_prop data "transaction_id");
              ("message",
               or_else (own_prop data "message")
                       (VStr "Transaction submitted to dark pool"));
              ("estimated_execution", own_prop data "estimated_execution") ];
     usage := {| total_tokens := 50 |} |}.

(** The run of the [catch] block after request [rq] went out of [w]. *)
Definition caught (rq : request) (w : world) (e : error)
  : completion HandlerResult * world :=
  (Normal (failure (VStr ("Failed to submit transaction: " ++ JS.message e))),
   logged "Error forwarding to backend:" e (sent rq w)).

(** A value that [v || "text"] turns into a string, and a value an optional
    string field may hold. *)
Definition string_or_falsy (v : value) : bool := is_string v || negb (truthy v).

Definition string_or_missing (v : value) : bool :=
  match v with VUndefined | VStr _ => true | _ => false end.

(** The body fields have the types the handler relies on: on a non-success
    status a string or falsy [error]; on a success status a boolean
    [success], a string or falsy [message], and [transaction_id] and
    [estimated_execution] each a string or missing.  A body that cannot be
    read, or is [null], constrains nothing. *)
Definition fields_as_expected (r : response) : bool :=
  match json r with
  | Throw _ => true
  | Normal data =>
      if nullish data then true
      else if ok r then
        is_boolean (own_prop data "success")
        && string_or_missing (own_prop data "transaction_id")
        && string_or_falsy (own_prop data "message")
        && string_or_missing (own_prop data "estimated_execution")
      else string_or_falsy (own_prop data "error")
  end.

(** ** The input schema as a whole *)

Module InputSchema.

(** What a key of [DarkPoolSubmitInputSchema] asks of its value: one of the
    schemas of module [Zod], or [z.string().url()], or [z.record(z.any())]. *)
Inductive field : Type :=
| plain (s : Zod.schema)
| url_string
| record_of_any.

Section Accepts.

(** The [url()] check asks the platform's URL parser whether the text
    parses; that parser is not part of this file. *)
Variable is_url : string -> bool.

(** [z.record(z.any())] takes any object (not [null], not an array) with
    whatever values. *)
Definition field_accepts (f : field) (v : value) : bool :=
  match f with
  | plain s => Zod.accepts s v
  | url_string => match v with VStr s => is_url s | _ => false end
  | record_of_any => match v with VObj _ => true | _ => false end
  end.

(** [z.object(shape).safeParse(v).success]: an object whose value under
    every key of the shape passes; other keys are not looked at. *)
Definition accepts (shape : list (string * field)) (v : value) : bool :=
  match v with
  | VObj _ =>
      forallb (fun kf => field_accepts (snd kf) (own_prop v (fst kf))) shape
  | _ => false
  end.

End Accepts.

End InputSchema.

Definition DarkPoolSubmitInputSchema : list (string * InputSchema.field) :=
  [ ("agent_id", InputSchema.plain agent_id_schema);
    ("target_endpoint", InputSchema.url_string);
    ("request_payload", InputSchema.record_of_any);
    ("payment_amount", InputSchema.plain payment_amount_schema) ].

(** ** Start-up: the port and the advertised base URL (lines 137-138) *)

Module Startup.

(** A string of the language as what it is, a sequence of UTF-16 code
    units; [units_of] gives the code units of a text written in ASCII. *)
Definition units_of (s : string) : list N :=
  map N_of_ascii (list_ascii_of_string s).

(** What [parseInt] returns, as far as it is computed here: [NaN], or an
    integer of magnitude at most [2^53], which a Number holds exactly
    ([Int true 0] is [-0]), or [Beyond]: a Number of larger magnitude, the
    result of a rounding that is not computed. *)
Inductive number : Type :=
| NaN
| Int (negative : bool) (magnitude : N)
| Beyond.

Definition exact_bound : N := 9007199254740992.

(** The white space and line terminators [parseInt] skips: TAB, LF, VT, FF,
    CR, SP, NBSP, U+1680, U+2000 to U+200A, LS, PS, U+202F, U+205F, U+3000
    and the byte order mark U+FEFF. *)
Definition is_space (c : N) : bool :=
  ((9 <=? c) && (c <=? 13) || (c =? 32) || (c =? 160) || (c =? 5760)
   || (8192 <=? c) && (c <=? 8202) || (c =? 8232) || (c =? 8233)
   || (c =? 8239) || (c =? 8287) || (c =? 12288) || (c =? 65279))%N.

Fixpoint trim_start (l : list N) : list N :=
  match l with
  | c :: rest => if is_space c then trim_start rest else l
  | [] => []
  end.

(** [0] to [9]. *)
Definition is_decimal_digit (c : N) : bool := ((48 <=? c) && (c <=? 57))%N.

(** The value of a code unit as a digit of the radix, if it is one:
    [0-9], then [a-z] or [A-Z] for ten and up. *)
Definition digit_value (radix : N) (c : N) : option N :=
  let v :=
    if ((48 <=? c) && (c <=? 57))%N then Some (c - 48)%N
    else if ((97 <=? c) && (c <=? 122))%N then Some (c - 87)%N
    else if ((65 <=? c) && (c <=? 90))%N then Some (c - 55)%N
    else None in
  match v with
  | Some d => if (d <? radix)%N then Some d else None
  | None => None
  end.

(** The digits up to the first code unit that is not a digit of the
    radix. *)
Fixpoint leading_digits (radix : N) (l : list N) : list N :=
  match l with
  | c :: rest =>
      match digit_value radix c with
      | Some d => d :: leading_digits radix rest
      | None => []
      end
  | [] => []
  end.

Definition math_int (radix : N) (ds : list N) : N :=
  fold_left (fun acc d => (acc * radix + d)%N) ds 0%N.

(** [parseInt(s)] with no radix given: skip white space, take a sign
    ([-] is 45, [+] is 43), take a [0x] or [0X] prefix (radix 16, else 10),
    read digits as far as they go; no digit at all gives [NaN]. *)
Definition parseInt (s : list N) : number :=
  let s0 := trim_start s in
  let signed :=
    match s0 with
    | c :: rest =>
        if (c =? 45)%N then (true, rest)
        else if (c =? 43)%N then (false, rest)
        else (false, s0)
    | [] => (false, s0)
    end in
  let prefixed :=
    match snd signed with
    | z :: x :: rest =>
        if ((z =? 48) && ((x =? 120) || (x =? 88)))%N
        then (16%N, rest)
        else (10%N, snd signed)
    | other => (10%N, other)
    end in
  match leading_digits (fst prefixed) (snd prefixed) with
  | [] => NaN
  | ds =>
      let n := math_int (fst prefixed) ds in
      if (n <=? exact_bound)%N then Int (fst signed) n else Beyond
  end.

(** [`${x}`]: "NaN", or the decimal digits with a minus sign before a
    negative value ([-0] prints as "0").  Nothing is printed here for a
    Number beyond [2^53]. *)
Definition number_text (x : number) : option (list N) :=
  match x with
  | NaN => Some (units_of "NaN")
  | Int neg n =>
      if (n <=? exact_bound)%N
      then Some ((if neg && negb (n =? 0)%N then units_of "-" else [])
                 ++ units_of (to_string n))%list
      else None
  | Beyond => None
  end.

(** [process.env], as far as the start-up code reads it. *)
Record startup_env : Type := mkStartupEnv {
  env_PORT : option (list N);
  env_BASE_URL : option (list N)
}.

(** A variable as [||] sees it: unset and empty are both falsy. *)
Definition set_and_filled (v : option (list N)) : option (list N) :=
  match v with
  | Some [] => None
  | Some s => Some s
  | None => None
  end.

(** [parseInt(process.env.PORT || "8080")] *)
Definition PORT (env : startup_env) : number :=
  parseInt (match set_and_filled (env_PORT env) with
            | Some p => p
            | None => units_of "8080"
            end).

(** [process.env.BASE_URL || `http://localhost:${PORT}`] *)
Definition BASE_URL (env : startup_env) : option (list N) :=
  match set_and_filled (env_BASE_URL env) with
  | Some u => Some u
  | None => option_map (fun t => (units_of "http://localhost:" ++ t)%list)
                       (number_text (PORT env))
  end.

(** The decimal value of a run of digits. *)
Definition decimal_value (ds : list N) : N :=
  fold_left (fun acc c => (acc * 10 + (c - 48))%N) ds 0%N.

End Startup.

(** Two readings of the same credential, or two answers to the same
    request, are the same. *)
Ltac same x y := assert (x = y) by congruence; subst x.

(** ** Sanity checks of the embedding *)

Example falsy_values :
  map truthy [ VUndefined; VNull; VBool false; VNum 0%float;
               VNum (-0)%float; VNum PrimFloat.nan; VStr "" ]
  = [ false; false; false; false; false; false; false ].
Proof. reflexivity. Qed.

Example truthy_values :
  map truthy [ VBool true; VNum 1%float; VNum (-2.5)%float; VStr "0";
               VArr []; VObj [] ]
  = [ true; true; true; true; true; true ].
Proof. reflexivity. Qed.

Example later_binding_wins :
  lookup "a" [("a", VStr "x"); ("b", VNull); ("a", VStr "y")]
  = Some (VStr "y").
Proof. reflexivity. Qed.

Example amounts :
  map (fun s => Zod.accepts payment_amount_schema (VStr s))
      [ "10.00"; "0.05"; "007.10"; ".50"; "10."; "1e2.00"; " 1.00";
        "1.00 "; "12.345" ]
  = [ true; true; true; false; false; false; false; false; false ].
Proof. reflexivity. Qed.

Example agent_ids :
  map (fun s => Zod.accepts agent_id_schema (VStr s)) [""; "a"; "agent-7"]
  = [false; true; true].
Proof. reflexivity. Qed.

Example status_text : map to_string [0; 200; 404; 503]%N
                      = ["0"; "200"; "404"; "503"].
Proof. reflexivity. Qed.

Example ok_range : map (fun st => ok {| status := st; json := Normal VNull |})
                       [199; 200; 204; 299; 300; 503]%N
                   = [false; true; true; true; false; false].
Proof. reflexivity. Qed.

(** ** Runs of the handler, path by path *)

Section Paths.

Variables (env : process_env) (input : SubmitInput) (w : world).
Variable apiKey : string.
Hypothesis Hkey : set_and_nonempty (INTERNAL_API_KEY env) = Some apiKey.

Local Abbreviation rq := (submit_request (backendUrl env) apiKey input).

Lemma handler_no_key :
  set_and_nonempty (INTERNAL_API_KEY env) = None ->
  handler env input w
  = (Normal (failure (VStr "Service misconfigured: Missing API key")), w).
Proof. intros H. unfold handler. rewrite H. reflexivity. Qed.

Lemma handler_fetch_rejects (e : error) :
  backend w rq = Throw e -> handler env input w = caught rq w e.
Proof.
  intros H. unfold handler. rewrite Hkey.
  unfold try_catch, bind, fetch. rewrite H. reflexivity.
Qed.

Lemma handler_json_rejects (r : response) (e : error) :
  backend w rq = Normal r -> json r = Throw e ->
  handler env input w = caught rq w e.
Proof.
  intros H J. unfold handler. rewrite Hkey.
  unfold try_catch, bind, fetch, response_json. rewrite H, J.
  reflexivity.
Qed.

Lemma handler_nullish_body (r : response) (data : value) :
  backend w rq = Normal r -> json r = Normal data -> nullish data = true ->
  handler env input w
  = caught rq w (cannot_read data (if ok r then "success" else "error")).
Proof.
  intros H J N. unfold handler. rewrite Hkey.
  unfold try_catch, bind, fetch, response_json. rewrite H, J.
  destruct (ok r); simpl; unfold get_prop; rewrite N; reflexivity.
Qed.

Lemma handler_not_ok (r : response) (data : value) :
  backend w rq = Normal r -> json r = Normal data -> nullish data = false ->
  ok r = false ->
  handler env input w
  = (Normal (failure (or_else (own_prop data "error")
                        (VStr ("Backend error: " ++ to_string (status r))))),
     sent rq w).
Proof.
  intros H J N O. unfold handler. rewrite Hkey.
  unfold try_catch, bind, fetch, response_json. rewrite H, J, O.
  simpl. unfold get_prop. rewrite N. reflexivity.
Qed.

Lemma handler_ok (r : response) (data : value) :
  backend w rq = Normal r -> json r = Normal data -> nullish data = false ->
  ok r = true ->
  handler env input w = (Normal (relayed data), sent rq w).
Proof.
  intros H J N O. unfold handler. rewrite Hkey.
  unfold try_catch, bind, fetch, response_json. rewrite H, J, O.
  simpl. unfold get_prop. rewrite N. reflexivity.
Qed.

End Paths.

(** Whatever the environment, the input and the remote end do, the handler
    ends on one of its three [return] statements or in its [catch] block;
    it never throws. *)
Lemma handler_cases (env : process_env) (input : SubmitInput) (w : world) :
  (set_and_nonempty (INTERNAL_API_KEY env) = None /\
   handler env input w
   = (Normal (failure (VStr "Service misconfigured: Missing API key")), w))
  \/ (exists k e,
        set_and_nonempty (INTERNAL_API_KEY env) = Some k /\
        (backend w (submit_request (backendUrl env) k input) = Throw e \/
         exists r, backend w (submit_request (backendUrl env) k input) = Normal r /\
           (json r = Throw e \/
            exists data, json r = Normal data /\ nullish data = true /\
              e = cannot_read data (if ok r then "success" else "error"))) /\
        handler env input w
        = caught (submit_request (backendUrl env) k input) w e)
  \/ (exists k r data,
        set_and_nonempty (INTERNAL_API_KEY env) = Some k /\
        backend w (submit_request (backendUrl env) k input) = Normal r /\
        json r = Normal data /\
        nullish data = false /\ ok r = false /\
        handler env input w
        = (Normal (failure (or_else (own_prop data "error")
                              (VStr ("Backend error: "
                                     ++ to_string (status r))))),
           sent (submit_request (backendUrl env) k input) w))
  \/ (exists k r data,
        set_and_nonempty (INTERNAL_API_KEY env) = Some k /\
        backend w (submit_request (backendUrl env) k input) = Normal r /\
        json r = Normal data /\
        nullish data = false /\ ok r = true /\
        handler env input w
        = (Normal (relayed data),
           sent (submit_request (backendUrl env) k input) w)).
Proof.
  destruct (set_and_nonempty (INTERNAL_API_KEY env)) as [k|] eqn:K.
  2: { left. split; [reflexivity | now apply handler_no_key]. }
  right.
  destruct (backend w (submit_request (backendUrl env) k input))
    as [r|e] eqn:B.
  2: { left. exists k, e. split; [reflexivity|]. split; [now left|].
       now apply handler_fetch_rejects. }
  destruct (json r) as [data|e] eqn:J.
  2: { left. exists k, e. split; [reflexivity|]. split.
       - right. exists r. split; [assumption | now left].
       - now apply handler_json_rejects with (r := r). }
  destruct (nullish data) eqn:Nl.
  { left. exists k, (cannot_read data (if ok r then "success" else "error")).
    split; [reflexivity|]. split.
    - right. exists r. split; [assumption|]. right. now exists data.
    - now apply handler_nullish_body with (r := r). }
  right. destruct (ok r) eqn:O.
  - right. exists k, r, data. repeat (split; [assumption || reflexivity|]).
    now apply handler_ok with (r := r).
  - left. exists k, r, data. repeat (split; [assumption || reflexivity|]).
    now apply handler_not_ok with (r := r).
Qed.

(** ** Properties of the handler *)

(** C2: when the service credential is not in the configuration (the
    variable is unset, or set to the empty text), the handler returns exactly
    [{success: false, message: "Service misconfigured: Missing API key"}] with
    its usage, and the world is left as it was: no request has gone out and
    nothing was logged. *)
Theorem missing_credential_short_circuits
  (env : process_env) (input : SubmitInput) (w : world) :
  INTERNAL_API_KEY env = None \/ INTERNAL_API_KEY env = Some "" ->
  handler env input w
  = (Normal {| output :=
                 VObj [ ("success", VBool false);
                        ("message",
                         VStr "Service misconfigured: Missing API key") ];
               usage := {| total_tokens := 10 |} |},
     w)
  /\ outbound (snd (handler env input w)) = outbound w.
Proof.
  intros H.
  assert (K : set_and_nonempty (INTERNAL_API_KEY env) = None)
    by (destruct H as [-> | ->]; reflexivity).
  rewrite (handler_no_key env input w K). split; reflexivity.
Qed.

Lemma missing_credential_short_circuits_witness :
  handler env_without_key sample_input (fresh (replies 200 (Normal VNull)))
  = (Normal {| output :=
                 VObj [ ("success", VBool false);
                        ("message",
                         VStr "Service misconfigured: Missing API key") ];
               usage := {| total_tokens := 10 |} |},
     fresh (replies 200 (Normal VNull)))
  /\ outbound (snd (handler env_without_key sample_input
                      (fresh (replies 200 (Normal VNull))))) = [].
Proof.
  apply (missing_credential_short_circuits env_without_key sample_input
           (fresh (replies 200 (Normal VNull)))).
  left. reflexivity.
Defined.

(** C3: with the credential present, when the outbound call itself fails
    with an error whose text is [e], the handler catches it: it returns
    [success: false] with the message "Failed to submit transaction: "
    followed by that text, after the one request went out and the error was
    logged; nothing is thrown to the caller. *)
Theorem transport_failure_is_caught
  (env : process_env) (input : SubmitInput) (w : world)
  (apiKey : string) (e : error) :
  set_and_nonempty (INTERNAL_API_KEY env) = Some apiKey ->
  backend w (submit_request (backendUrl env) apiKey input) = Throw e ->
  handler env input w
  = (Normal {| output :=
                 VObj [ ("success", VBool false);
                        ("message",
                         VStr ("Failed to submit transaction: "
                               ++ JS.message e)) ];
               usage := {| total_tokens := 10 |} |},
     logged "Error forwarding to backend:" e
       (sent (submit_request (backendUrl env) apiKey input) w)).
Proof.
  intros K B. now rewrite (handler_fetch_rejects env input w K B).
Qed.

Lemma transport_failure_is_caught_witness :
  returned (handler env_with_key sample_input (fresh (unreachable ECONNREFUSED)))
  = Some {| output :=
              VObj [ ("success", VBool false);
                     ("message",
                      VStr "Failed to submit transaction: ECONNREFUSED") ];
            usage := {| total_tokens := 10 |} |}.
Proof.
  rewrite (@transport_failure_is_caught env_with_key sample_input
             (fresh (unreachable ECONNREFUSED)) "s3cret" ECONNREFUSED
             eq_refl eq_refl).
  reflexivity.
Defined.

(** C4, as the claim words it ("the body's error field if that field is
    present"), fails: on a 503 whose body is [{"error": ""}] the field is
    present and empty, yet the message is the generated text; and on a 503
    whose body is the JSON value [null] the message is neither the field nor
    the generated text but the text of the [catch] block. *)
Lemma nonsuccess_message_counterexample :
  (let body := VObj [("error", VStr "")] in
   let run := handler env_with_key sample_input
                (fresh (replies 503 (Normal body))) in
   option_map (output_field "message") (returned run)
   = Some (VStr "Backend error: 503")
   /\ Spec.nonsuccess_message 503 body = VStr ""
   /\ option_map (output_field "message") (returned run)
      <> Some (Spec.nonsuccess_message 503 body))
  /\
  (let run := handler env_with_key sample_input
                (fresh (replies 503 (Normal VNull))) in
   option_map (output_field "message") (returned run)
   = Some (VStr ("Failed to submit transaction: "
                 ++ JS.message (cannot_read VNull "error")))
   /\ Spec.nonsuccess_message 503 VNull = VStr "Backend error: 503"
   /\ option_map (output_field "message") (returned run)
      <> Some (Spec.nonsuccess_message 503 VNull)).
Proof.
  split; cbv zeta; (split; [reflexivity | split; [reflexivity | discriminate]]).
Qed.

(** C4, amended: with the credential present, for every response with a
    non-success status [s] whose body parses to a JSON value other than
    [null], the handler returns [success: false] with usage 10, and its
    message is the body's [error] field when that field is present and
    truthy, and otherwise the text "Backend error: " followed by [s]. *)
Theorem nonsuccess_status_message
  (env : process_env) (input : SubmitInput) (w : world)
  (apiKey : string) (r : response) (data : value) :
  set_and_nonempty (INTERNAL_API_KEY env) = Some apiKey ->
  backend w (submit_request (backendUrl env) apiKey input) = Normal r ->
  ok r = false ->
  json r = Normal data ->
  nullish data = false ->
  handler env input w
  = (Normal {| output :=
                 VObj [ ("success", VBool false);
                        ("message",
                         if truthy (own_prop data "error")
                         then own_prop data "error"
                         else VStr ("Backend error: "
                                    ++ to_string (status r))) ];
               usage := {| total_tokens := 10 |} |},
     sent (submit_request (backendUrl env) apiKey input) w).
Proof.
  intros K B O J Nl. now rewrite (handler_not_ok env input w K B J Nl O).
Qed.

Lemma nonsuccess_status_message_witness :
  returned (handler env_with_key sample_input
              (fresh (replies 503 (Normal (VObj [("error", VStr "overloaded")])))))
  = Some {| output := VObj [ ("success", VBool false);
                             ("message", VStr "overloaded") ];
            usage := {| total_tokens := 10 |} |}
  /\
  returned (handler env_with_key sample_input
              (fresh (replies 503 (Normal (VObj [("error", VStr "")])))))
  = Some {| output := VObj [ ("success", VBool false);
                             ("message", VStr "Backend error: 503") ];
            usage := {| total_tokens := 10 |} |}.
Proof.
  split.
  - rewrite (@nonsuccess_status_message env_with_key sample_input
               (fresh (replies 503 (Normal (VObj [("error", VStr "overloaded")]))))
               "s3cret" _ _ eq_refl eq_refl eq_refl eq_refl eq_refl).
    reflexivity.
  - rewrite (@nonsuccess_status_message env_with_key sample_input
               (fresh (replies 503 (Normal (VObj [("error", VStr "")]))))
               "s3cret" _ _ eq_refl eq_refl eq_refl eq_refl eq_refl).
    reflexivity.
Defined.

(** C5, as the claim words it ("message equals the body's message field if
    present"), fails: on a 200 whose body is
    [{"success": true, "message": ""}] the field is present and empty, yet
    the returned message is the default text. *)
Lemma success_message_counterexample :
  let props := [("success", VBool true); ("message", VStr "")] in
  let run := handler env_with_key sample_input
               (fresh (replies 200 (Normal (VObj props)))) in
  option_map (output_field "message") (returned run)
  = Some (VStr "Transaction submitted to dark pool")
  /\ Spec.success_message props = VStr ""
  /\ option_map (output_field "message") (returned run)
     <> Some (Spec.success_message props).
Proof.
  cbv zeta. split; [reflexivity | split; [reflexivity | discriminate]].
Qed.

(** C5, amended: with the credential present, for every response with a
    success status whose body is a JSON object, the result's [success],
    [transaction_id] and [estimated_execution] are the body's fields as they
    are ([undefined] when missing; [success] is not forced to a boolean), and
    its message is the body's [message] field when that field is present and
    truthy, and otherwise "Transaction submitted to dark pool"; the usage is
    50. *)
Theorem success_status_relays_body
  (env : process_env) (input : SubmitInput) (w : world)
  (apiKey : string) (r : response) (props : list (string * value)) :
  set_and_nonempty (INTERNAL_API_KEY env) = Some apiKey ->
  backend w (submit_request (backendUrl env) apiKey input) = Normal r ->
  ok r = true ->
  json r = Normal (VObj props) ->
  handler env input w
  = (Normal {| output :=
                 VObj [ ("success", own_prop (VObj props) "success");
                        ("transaction_id",
                         own_prop (VObj props) "transaction_id");
                        ("message",
                         if truthy (own_prop (VObj props) "message")
                         then own_prop (VObj props) "message"
                         else VStr "Transaction submitted to dark pool");
                        ("estimated_execution",
                         own_prop (VObj props) "estimated_execution") ];
               usage := {| total_tokens := 50 |} |},
     sent (submit_request (backendUrl env) apiKey input) w).
Proof.
  intros K B O J. now rewrite (handler_ok env input w K B J eq_refl O).
Qed.

Lemma success_status_relays_body_witness :
  returned (handler env_with_key sample_input
              (fresh (replies 200
                        (Normal (VObj [ ("success", VBool true);
                                        ("transaction_id", VStr "tx123");
                                        ("estimated_execution", VStr "30s") ])))))
  = Some {| output :=
              VObj [ ("success", VBool true);
                     ("transaction_id", VStr "tx123");
                     ("message", VStr "Transaction submitted to dark pool");
                     ("estimated_execution", VStr "30s") ];
            usage := {| total_tokens := 50 |} |}
  /\
  option_map (output_field "success")
    (returned (handler env_with_key sample_input
                 (fresh (replies 200
                           (Normal (VObj [ ("success", VBool false);
                                           ("message", VStr "rejected") ]))))))
  = Some (VBool false).
Proof.
  split.
  - rewrite (@success_status_relays_body env_with_key sample_input
               (fresh (replies 200 _)) "s3cret" _ _
               eq_refl eq_refl eq_refl eq_refl).
    reflexivity.
  - rewrite (@success_status_relays_body env_with_key sample_input
               (fresh (replies 200 _)) "s3cret" _ _
               eq_refl eq_refl eq_refl eq_refl).
    reflexivity.
Defined.



(** *** The output schema on the handler's results *)

Lemma or_else_default_truthy (a : value) (s : string) :
  s <> "" -> truthy (or_else a (VStr s)) = true.
Proof.
  intros Hs. unfold or_else. destruct (truthy a) eqn:T; [exact T|].
  simpl. destruct s; [now elim Hs | reflexivity].
Qed.

Lemma or_else_default_is_string (a : value) (s : string) :
  is_string (or_else a (VStr s)) = string_or_falsy a.
Proof.
  unfold or_else, string_or_falsy.
  destruct (truthy a); simpl; [now rewrite orb_false_r | now rewrite orb_true_r].
Qed.

Lemma accepts_optional_string (v : value) :
  Zod.accepts (Zod.optional (Zod.string_ [])) v = string_or_missing v.
Proof. destruct v; reflexivity. Qed.

Lemma accepts_failure (m : value) :
  Zod.accepts DarkPoolSubmitOutputSchema (output (failure m)) = is_string m.
Proof.
  cbn. destruct m; reflexivity.
Qed.

Lemma accepts_relayed (data : value) :
  Zod.accepts DarkPoolSubmitOutputSchema (output (relayed data))
  = is_boolean (own_prop data "success")
    && string_or_missing (own_prop data "transaction_id")
    && string_or_falsy (own_prop data "message")
    && string_or_missing (own_prop data "estimated_execution").
Proof.
  unfold relayed, DarkPoolSubmitOutputSchema, output.
  set (s := own_prop data "success").
  set (t := own_prop data "transaction_id").
  set (e := own_prop data "estimated_execution").
  set (m := or_else _ _).
  assert (Hm : is_string m = string_or_falsy (own_prop data "message"))
    by apply or_else_default_is_string.
  rewrite <- Hm.
  change (Zod.accepts Zod.boolean s
          && (Zod.accepts (Zod.optional (Zod.string_ [])) t
              && (Zod.accepts (Zod.string_ []) m
                  && (Zod.accepts (Zod.optional (Zod.string_ [])) e && true)))
          = is_boolean s && string_or_missing t && is_string m
            && string_or_missing e).
  rewrite !accepts_optional_string, andb_true_r, !andb_assoc.
  clearbody s t e m. destruct m; reflexivity.
Qed.

(** C8, as the claim words it (50 on every success HTTP status), fails: a
    200 whose body is the JSON value [null], and a 204 whose body cannot be
    read as JSON, both have a success status, and both end in the [catch]
    block with usage 10. *)
Lemma usage_on_success_status_counterexample :
  (ok {| status := 200; json := Normal VNull |} = true
   /\ option_map (fun h => total_tokens (usage h))
        (returned (handler env_with_key sample_input
                     (fresh (replies 200 (Normal VNull)))))
      = Some 10%N
   /\ option_map (fun h => total_tokens (usage h))
        (returned (handler env_with_key sample_input
                     (fresh (replies 200 (Normal VNull)))))
      <> Some 50%N)
  /\
  (let unreadable :=
     Throw {| name := "SyntaxError";
              message := "Unexpected end of JSON input" |} in
   ok {| status := 204; json := unreadable |} = true
   /\ option_map (fun h => total_tokens (usage h))
        (returned (handler env_with_key sample_input
                     (fresh (replies 204 unreadable))))
      = Some 10%N
   /\ option_map (fun h => total_tokens (usage h))
        (returned (handler env_with_key sample_input
                     (fresh (replies 204 unreadable))))
      <> Some 50%N).
Proof.
  split; cbv zeta; (split; [reflexivity | split; [reflexivity | discriminate]]).
Qed.

(** C8, amended: every invocation returns a usage value with its result.
    It is 10 when the credential is missing, when the outbound call fails,
    on every non-success status, and when the body of a response of any
    status cannot be read or is [null] (the [catch] block); it is 50 when a
    response with a success status was read, with a body other than [null],
    and relayed, whatever [success] its body reports; and it is never
    anything but 10 or 50. *)
Theorem usage_by_path
  (env : process_env) (input : SubmitInput) (w : world) :
  exists (h : HandlerResult) (w' : world),
    handler env input w = (Normal h, w')
    /\ (total_tokens (usage h) = 10%N \/ total_tokens (usage h) = 50%N)
    /\ (set_and_nonempty (INTERNAL_API_KEY env) = None ->
        total_tokens (usage h) = 10%N)
    /\ (forall k e,
          set_and_nonempty (INTERNAL_API_KEY env) = Some k ->
          backend w (submit_request (backendUrl env) k input) = Throw e ->
          total_tokens (usage h) = 10%N)
    /\ (forall k r,
          set_and_nonempty (INTERNAL_API_KEY env) = Some k ->
          backend w (submit_request (backendUrl env) k input) = Normal r ->
          ok r = false ->
          total_tokens (usage h) = 10%N)
    /\ (forall k r,
          set_and_nonempty (INTERNAL_API_KEY env) = Some k ->
          backend w (submit_request (backendUrl env) k input) = Normal r ->
          (forall data, json r = Normal data -> nullish data = true) ->
          total_tokens (usage h) = 10%N)
    /\ (forall k r data,
          set_and_nonempty (INTERNAL_API_KEY env) = Some k ->
          backend w (submit_request (backendUrl env) k input) = Normal r ->
          ok r = true ->
          json r = Normal data -> nullish data = false ->
          total_tokens (usage h) = 50%N).
Proof.
  destruct (handler_cases env input w)
    as [[K E] | [(k & e & K & P & E)
                | [(k & r & d & K & B & J & Nl & O & E)
                  | (k & r & d & K & B & J & Nl & O & E)]]];
    rewrite E; eexists; eexists; (split; [reflexivity|]);
    cbn [usage failure relayed total_tokens];
    (split; [auto|]); repeat split; intros; try reflexivity; try congruence.
  - (* the catch block was reached, so no body was relayed *)
    same k0 k.
    destruct P as [B | (r0 & B & [J | (d0 & J & Nl & _)])]; congruence.
  - (* a body was relayed, so it was read and is not null *)
    same k0 k. same r0 r.
    match goal with H : forall data, _ |- _ => specialize (H d J) end.
    congruence.
Qed.

Lemma usage_by_path_witness :
  option_map (fun h => total_tokens (usage h))
    (returned (handler env_with_key sample_input
                 (fresh (replies 200
                           (Normal (VObj [("success", VBool false)]))))))
  = Some 50%N
  /\
  option_map (fun h => total_tokens (usage h))
    (returned (handler env_with_key sample_input
                 (fresh (replies 404 (Normal (VObj []))))))
  = Some 10%N.
Proof.
  split.
  - destruct (usage_by_path env_with_key sample_input
                (fresh (replies 200
                          (Normal (VObj [("success", VBool false)])))))
      as (h & w' & E & _ & _ & _ & _ & _ & H50).
    rewrite E. cbn.
    now rewrite (H50 "s3cret" _ _ eq_refl eq_refl eq_refl eq_refl eq_refl).
  - destruct (usage_by_path env_with_key sample_input
                (fresh (replies 404 (Normal (VObj [])))))
      as (h & w' & E & _ & _ & _ & H10 & _ & _).
    rewrite E. cbn.
    now rewrite (H10 "s3cret" _ eq_refl eq_refl eq_refl).
Defined.

(** C9: on a success status with a JSON object body, the result's
    [success] is a boolean exactly when the body's [success] field is one;
    when the body has no [success] field the result carries [undefined]
    there, and the result does not satisfy [DarkPoolSubmitOutputSchema]. *)
Theorem missing_success_is_relayed
  (env : process_env) (input : SubmitInput) (w : world)
  (apiKey : string) (r : response) (props : list (string * value)) :
  set_and_nonempty (INTERNAL_API_KEY env) = Some apiKey ->
  backend w (submit_request (backendUrl env) apiKey input) = Normal r ->
  ok r = true ->
  json r = Normal (VObj props) ->
  exists (h : HandlerResult) (w' : world),
    handler env input w = (Normal h, w')
    /\ (is_boolean (output_field "success" h) = true
        <-> exists b, lookup "success" props = Some (VBool b))
    /\ (lookup "success" props = None ->
        output_field "success" h = VUndefined
        /\ Zod.accepts DarkPoolSubmitOutputSchema (output h) = false).
Proof.
  intros K B O J.
  rewrite (handler_ok env input w K B J eq_refl O).
  eexists; eexists; split; [reflexivity|].
  change (output_field "success" (relayed (VObj props)))
    with (own_prop (VObj props) "success").
  rewrite accepts_relayed. cbn [own_prop].
  split; [split|].
  - destruct (lookup "success" props) as [[]|]; try discriminate.
    intros _. now eexists.
  - intros [b ->]. reflexivity.
  - intros ->. split; reflexivity.
Qed.

Lemma missing_success_is_relayed_witness :
  option_map (fun h => (output_field "success" h,
                        Zod.accepts DarkPoolSubmitOutputSchema (output h)))
    (returned (handler env_with_key sample_input
                 (fresh (replies 200
                           (Normal (VObj [("transaction_id", VStr "tx9")]))))))
  = Some (VUndefined, false).
Proof.
  destruct (@missing_success_is_relayed env_with_key sample_input
              (fresh (replies 200
                        (Normal (VObj [("transaction_id", VStr "tx9")]))))
              "s3cret" _ _ eq_refl eq_refl eq_refl eq_refl)
    as (h & w' & E & _ & H).
  rewrite E. cbn [returned fst option_map].
  destruct (H eq_refl) as [-> ->]. reflexivity.
Defined.

(** C10: on a response whose body is a JSON object, an [error] field (on a
    non-success status) or a [message] field (on a success status) that is
    the empty text gives the same message as a missing field, namely the
    generated "Backend error: <status>" or the default "Transaction
    submitted to dark pool"; so the returned message is never the empty
    text on these paths. *)
Theorem empty_text_falls_back_to_default
  (env : process_env) (input : SubmitInput) (w : world)
  (apiKey : string) (r : response) (props : list (string * value)) :
  set_and_nonempty (INTERNAL_API_KEY env) = Some apiKey ->
  backend w (submit_request (backendUrl env) apiKey input) = Normal r ->
  json r = Normal (VObj props) ->
  exists (h : HandlerResult) (w' : world),
    handler env input w = (Normal h, w')
    /\ output_field "message" h <> VStr ""
    /\ truthy (output_field "message" h) = true
    /\ (ok r = false ->
        lookup "error" props = Some (VStr "")
        \/ lookup "error" props = None ->
        output_field "message" h
        = VStr ("Backend error: " ++ to_string (status r)))
    /\ (ok r = true ->
        lookup "message" props = Some (VStr "")
        \/ lookup "message" props = None ->
        output_field "message" h
        = VStr "Transaction submitted to dark pool").
Proof.
  intros K B J.
  assert (Ne : forall v, truthy v = true -> v <> VStr "")
    by (intros v T ->; discriminate).
  destruct (ok r) eqn:O.
  - rewrite (handler_ok env input w K B J eq_refl O).
    eexists; eexists; split; [reflexivity|].
    change (output_field "message" (relayed (VObj props)))
      with (or_else (own_prop (VObj props) "message")
              (VStr "Transaction submitted to dark pool")).
    assert (T : truthy (or_else (own_prop (VObj props) "message")
                          (VStr "Transaction submitted to dark pool")) = true)
      by (apply or_else_default_truthy; discriminate).
    repeat split; auto; try discriminate.
    cbn [own_prop]. intros _ [-> | ->]; reflexivity.
  - rewrite (handler_not_ok env input w K B J eq_refl O).
    eexists; eexists; split; [reflexivity|].
    change (output_field "message" (failure ?m)) with m.
    assert (T : truthy (or_else (own_prop (VObj props) "error")
                          (VStr ("Backend error: " ++ to_string (status r))))
                = true)
      by (apply or_else_default_truthy; discriminate).
    repeat split; auto; try discriminate.
    cbn [own_prop]. intros _ [-> | ->]; reflexivity.
Qed.

Lemma empty_text_falls_back_to_default_witness :
  option_map (output_field "message")
    (returned (handler env_with_key sample_input
                 (fresh (replies 503 (Normal (VObj [("error", VStr "")]))))))
  = Some (VStr "Backend error: 503")
  /\
  option_map (output_field "message")
    (returned (handler env_with_key sample_input
                 (fresh (replies 200
                           (Normal (VObj [ ("success", VBool true);
                                           ("message", VStr "") ]))))))
  = Some (VStr "Transaction submitted to dark pool").
Proof.
  split.
  - destruct (@empty_text_falls_back_to_default env_with_key sample_input
                (fresh (replies 503 (Normal (VObj [("error", VStr "")]))))
                "s3cret" _ _ eq_refl eq_refl eq_refl)
      as (h & w' & E & _ & _ & H & _).
    rewrite E. cbn [returned fst option_map].
    now rewrite (H eq_refl (or_introl eq_refl)).
  - destruct (@empty_text_falls_back_to_default env_with_key sample_input
                (fresh (replies 200
                          (Normal (VObj [ ("success", VBool true);
                                          ("message", VStr "") ]))))
                "s3cret" _ _ eq_refl eq_refl eq_refl)
      as (h & w' & E & _ & _ & _ & H).
    rewrite E. cbn [returned fst option_map].
    now rewrite (H eq_refl (or_introl eq_refl)).
Defined.

(** C1, as the claim words it (a structurally valid result for every
    behaviour of the backend), fails: a 200 whose body is [{}] is relayed
    with [success] undefined, and a 503 whose body is [{"error": true}] is
    relayed with a boolean as message; neither result satisfies
    [DarkPoolSubmitOutputSchema]. *)
Lemma structurally_valid_counterexample :
  option_map (fun h => (output_field "success" h,
                        Zod.accepts DarkPoolSubmitOutputSchema (output h)))
    (returned (handler env_with_key sample_input
                 (fresh (replies 200 (Normal (VObj []))))))
  = Some (VUndefined, false)
  /\
  option_map (fun h => (output_field "message" h,
                        Zod.accepts DarkPoolSubmitOutputSchema (output h)))
    (returned (handler env_with_key sample_input
                 (fresh (replies 503
                           (Normal (VObj [("error", VBool true)]))))))
  = Some (VBool true, false).
Proof. split; reflexivity. Qed.

(** C1, amended: for every request and every behaviour of the backend
    (any status, any body, an unreadable body, [null], a failed call) the
    handler never throws: it returns an object that has a [success] and a
    [message] key, paired with a usage value.  That object satisfies
    [DarkPoolSubmitOutputSchema] exactly when the body that was read, if any,
    has fields of the expected types ([fields_as_expected]); in particular
    it does so whenever the credential is missing, the call fails, or the
    body is unreadable or [null]. *)
Theorem handler_never_throws
  (env : process_env) (input : SubmitInput) (w : world) :
  exists (h : HandlerResult) (w' : world),
    handler env input w = (Normal h, w')
    /\ (exists props,
          output h = VObj props
          /\ lookup "success" props <> None
          /\ lookup "message" props <> None)
    /\ (Zod.accepts DarkPoolSubmitOutputSchema (output h) = true
        <-> forall k r,
              set_and_nonempty (INTERNAL_API_KEY env) = Some k ->
              backend w (submit_request (backendUrl env) k input) = Normal r ->
              fields_as_expected r = true).
Proof.
  destruct (handler_cases env input w)
    as [[K E] | [(k & e & K & P & E)
                | [(k & r & d & K & B & J & Nl & O & E)
                  | (k & r & d & K & B & J & Nl & O & E)]]];
    rewrite E; eexists; eexists; (split; [reflexivity|]);
    (split; [eexists; split; [reflexivity | split; discriminate] |]).
  - rewrite accepts_failure. split; [congruence | reflexivity].
  - rewrite accepts_failure. split; [| reflexivity].
    intros _ k' r' K' B'.
    same k' k.
    unfold fields_as_expected.
    destruct P as [B | (r0 & B & [J | (d0 & J & Nl & _)])].
    + congruence.
    + same r' r0. now rewrite J.
    + same r' r0. now rewrite J, Nl.
  - rewrite accepts_failure, or_else_default_is_string. split.
    + intros H k' r' K' B'.
      same k' k.
      same r' r.
      unfold fields_as_expected. now rewrite J, Nl, O.
    + intros H. specialize (H k r K B).
      unfold fields_as_expected in H. now rewrite J, Nl, O in H.
  - rewrite accepts_relayed. split.
    + intros H k' r' K' B'.
      same k' k.
      same r' r.
      unfold fields_as_expected. now rewrite J, Nl, O.
    + intros H. specialize (H k r K B).
      unfold fields_as_expected in H. now rewrite J, Nl, O in H.
Qed.

Lemma handler_never_throws_witness :
  option_map (fun h => Zod.accepts DarkPoolSubmitOutputSchema (output h))
    (returned (handler env_with_key sample_input
                 (fresh (replies 200
                           (Normal (VObj [ ("success", VBool true);
                                           ("transaction_id", VStr "tx123") ]))))))
  = Some true.
Proof.
  destruct (handler_never_throws env_with_key sample_input
              (fresh (replies 200
                        (Normal (VObj [ ("success", VBool true);
                                        ("transaction_id", VStr "tx123") ])))))
    as (h & w' & E & _ & V).
  rewrite E. cbn [returned fst option_map]. f_equal. apply V.
  intros k r _ B. inversion B. reflexivity.
Defined.

(** ** The [payment_amount] pattern *)

Lemma matched_app (xs ys : list pos) :
  matched (xs ++ ys) = matched xs || matched ys.
Proof. destruct xs; reflexivity. Qed.

Lemma matched_flat_map (f : pos -> list pos) (xs : list pos) :
  matched (flat_map f xs) = existsb (fun x => matched (f x)) xs.
Proof.
  induction xs as [|x xs IH]; simpl; [reflexivity|].
  now rewrite matched_app, IH.
Qed.

(** A pattern that begins with [^] matches from the first position only. *)
Lemma no_late_start (r : regex) (l : list ascii) :
  forall i, existsb (fun p => matched (ends (Seq Start r) p)) (starts (S i) l)
            = false.
Proof.
  induction l as [|c l IH]; intros i; simpl; [reflexivity|].
  apply IH.
Qed.

Lemma test_anchored (r : regex) (s : string) :
  test (Seq Start r) s = matched (ends r (0, list_ascii_of_string s)).
Proof.
  unfold test.
  assert (E0 : forall l, ends (Seq Start r) (0, l) = ends r (0, l))
    by (intros l; simpl; apply app_nil_r).
  destruct (list_ascii_of_string s) as [|c l]; cbn [starts existsb];
    rewrite E0; [now rewrite orb_false_r|].
  now rewrite no_late_start, orb_false_r.
Qed.

(** [\d+] from a position ends after every non-empty run of digits that
    starts there, and nowhere else. *)
Lemma plus_digit_ends (q : pos) :
  forall fuel i l,
    length l < fuel ->
    (In q (plus_ends (ends Digit) fuel (i, l))
     <-> exists ip,
           ip <> [] /\ forallb is_digit ip = true /\
           l = ip ++ snd q /\ fst q = i + length ip).
Proof.
  induction fuel as [|fuel IH]; intros i l Hlt; [lia|].
  destruct l as [|c l]; simpl.
  - split; [tauto|]. intros (ip & Hne & _ & Hl & _).
    destruct ip; [now elim Hne | discriminate].
  - destruct (is_digit c) eqn:D; simpl.
    + rewrite app_nil_r.
      replace (length l <? S (length l))%nat with true
        by (symmetry; apply Nat.ltb_lt; lia).
      simpl in Hlt. rewrite (IH (S i) l) by lia. split.
      * intros [<- | (ip & Hne & Hd & Hl & Hq)].
        -- exists [c]. simpl. rewrite D. repeat split; [discriminate | lia].
        -- exists (c :: ip). simpl. rewrite D, Hd, Hq, <- Hl.
           repeat split; [discriminate | lia].
      * intros (ip & Hne & Hd & Hl & Hq).
        destruct ip as [|c' ip]; [now elim Hne|].
        simpl in Hd, Hl, Hq. injection Hl as <- Hl.
        apply andb_true_iff in Hd as [_ Hd].
        destruct ip as [|c2 ip].
        -- left. destruct q as [qi ql]. simpl in *. subst. f_equal. lia.
        -- right. exists (c2 :: ip).
           repeat split; [discriminate | assumption | assumption | ].
           simpl in *. lia.
    + split; [tauto|]. intros (ip & Hne & Hd & Hl & _).
      destruct ip as [|c' ip]; [now elim Hne|].
      simpl in Hd, Hl. injection Hl as <- _.
      rewrite D in Hd. discriminate.
Qed.

(** [\.\d{2}$] matches from a position exactly when what is left is a
    point and two digits. *)
Lemma point_two_digits_end (i : nat) (t : list ascii) :
  matched (ends (Seq (Lit ".") (Seq (Count Digit 2) End_)) (i, t)) = true
  <-> exists d1 d2,
        is_digit d1 = true /\ is_digit d2 = true /\ t = ["."%char; d1; d2].
Proof.
  split.
  - destruct t as [|c t]; simpl; [discriminate|].
    destruct (Ascii.eqb_spec c "."); simpl; [|discriminate].
    destruct t as [|d1 t]; simpl; [discriminate|].
    destruct (is_digit d1) eqn:D1; simpl; [|discriminate].
    destruct t as [|d2 t]; simpl; [discriminate|].
    destruct (is_digit d2) eqn:D2; simpl; [|discriminate].
    destruct t as [|x t]; simpl; [|discriminate].
    intros _. subst c. now exists d1, d2.
  - intros (d1 & d2 & D1 & D2 & ->).
    simpl. rewrite D1. simpl. rewrite D2. reflexivity.
Qed.

(** C7: the [payment_amount] schema accepts a text exactly when it is an
    integer part of one or more digits, a point, and exactly two digits.  So
    "10", "10.5" and "10.000" are rejected, as is every text that begins with
    a sign or any other non-digit; and only a text is accepted, never a
    number, so the amount is not parsed. *)
Theorem payment_amount_two_decimals :
  (forall s : string,
      Zod.accepts payment_amount_schema (VStr s) = true
      <-> Spec.two_decimal_amount s)
  /\ Zod.accepts payment_amount_schema (VStr "10") = false
  /\ Zod.accepts payment_amount_schema (VStr "10.5") = false
  /\ Zod.accepts payment_amount_schema (VStr "10.000") = false
  /\ Zod.accepts payment_amount_schema (VStr "-5.00") = false
  /\ (forall (c : ascii) (s : string),
         is_digit c = false ->
         Zod.accepts payment_amount_schema (VStr (String c s)) = false)
  /\ (forall v : value,
         Zod.accepts payment_amount_schema v = true -> is_string v = true).
Proof.
  assert (Main : forall s : string,
             Zod.accepts payment_amount_schema (VStr s) = true
             <-> Spec.two_decimal_amount s).
  { intros s. unfold payment_amount_schema, payment_amount_pattern.
    cbn [Zod.accepts forallb Zod.check_ok]. rewrite andb_true_r.
    rewrite test_anchored.
    cbn [ends]. rewrite matched_flat_map, existsb_exists.
    unfold Spec.two_decimal_amount. cbn [snd].
    split.
    - intros ([j t] & Hin & Hm).
      apply plus_digit_ends in Hin; [| lia].
      destruct Hin as (ip & Hne & Hd & Hl & _).
      apply point_two_digits_end in Hm as (d1 & d2 & D1 & D2 & ->).
      now exists ip, d1, d2.
    - intros (ip & d1 & d2 & Hne & Hd & D1 & D2 & Hl).
      exists (length ip, ["."%char; d1; d2]). split.
      + apply plus_digit_ends; [lia|]. now exists ip.
      + apply point_two_digits_end. now exists d1, d2. }
  split; [exact Main|].
  repeat (split; [reflexivity|]).
  split.
  - intros c s D.
    destruct (Zod.accepts payment_amount_schema (VStr (String c s))) eqn:A;
      [| reflexivity].
    apply Main in A. destruct A as (ip & d1 & d2 & Hne & Hd & _ & _ & Hl).
    destruct ip as [|c' ip]; [now elim Hne|].
    simpl in Hd, Hl. injection Hl as <- _.
    rewrite D in Hd. discriminate.
  - intros v. destruct v; try discriminate. reflexivity.
Qed.

Lemma payment_amount_two_decimals_witness :
  Spec.two_decimal_amount "10.00"
  /\ Zod.accepts payment_amount_schema (VStr "+5.00") = false.
Proof.
  destruct payment_amount_two_decimals as (Main & _ & _ & _ & _ & Sign & _).
  split.
  - apply (Main "10.00"). reflexivity.
  - apply (Sign "+"%char "5.00"). reflexivity.
Defined.

(** ** Further properties: start-up values *)

Example ports :
  map (fun s => Startup.parseInt (Startup.units_of s))
      [ "8080"; "  3000"; "08080"; "80a"; "80x"; "00x10"; "0x1F90"; "-1";
        "-0"; "+7"; "abc"; "0x"; "- 5"; ""; "9007199254740992";
        "9007199254740993" ]
  = [ Startup.Int false 8080; Startup.Int false 3000; Startup.Int false 8080;
      Startup.Int false 80; Startup.Int false 80; Startup.Int false 0;
      Startup.Int false 8080; Startup.Int true 1;
      Startup.Int true 0; Startup.Int false 7;
      Startup.NaN; Startup.NaN; Startup.NaN; Startup.NaN;
      Startup.Int false 9007199254740992; Startup.Beyond ].
Proof. reflexivity. Qed.

Example ports_after_wide_space :
  map Startup.parseInt
      [ (12288 :: Startup.units_of "8080")%N;
        (160 :: 65279 :: Startup.units_of "80")%N;
        (8203 :: Startup.units_of "80")%N ]
  = [ Startup.Int false 8080; Startup.Int false 80; Startup.NaN ].
Proof. reflexivity. Qed.

Example base_urls :
  map Startup.BASE_URL
      [ {| Startup.env_PORT := None; Startup.env_BASE_URL := None |};
        {| Startup.env_PORT := Some []; Startup.env_BASE_URL := Some [] |};
        {| Startup.env_PORT := Some (Startup.units_of "3000px");
           Startup.env_BASE_URL := None |};
        {| Startup.env_PORT := Some (Startup.units_of "port");
           Startup.env_BASE_URL := None |};
        {| Startup.env_PORT := Some (Startup.units_of "-0");
           Startup.env_BASE_URL := None |};
        {| Startup.env_PORT := Some (Startup.units_of "port");
           Startup.env_BASE_URL :=
             Some (Startup.units_of "https://pool.example") |} ]
  = map (fun s => Some (Startup.units_of s))
      [ "http://localhost:8080"; "http://localhost:8080";
        "http://localhost:3000"; "http://localhost:NaN";
        "http://localhost:0"; "https://pool.example" ].
Proof. reflexivity. Qed.

(** ** Further properties: the handler *)

Lemma output_field_failure (k : string) (m : value) :
  output_field k (failure m)
  = if String.eqb k "message" then m
    else if String.eqb k "success" then VBool false else VUndefined.
Proof.
  unfold output_field, failure, output, own_prop, lookup.
  destruct (String.eqb k "message"); [reflexivity|].
  destruct (String.eqb k "success"); reflexivity.
Qed.

Lemma output_field_relayed (data : value) :
  output_field "success" (relayed data) = own_prop data "success"
  /\ output_field "transaction_id" (relayed data)
     = own_prop data "transaction_id"
  /\ output_field "estimated_execution" (relayed data)
     = own_prop data "estimated_execution"
  /\ output_field "message" (relayed data)
     = or_else (own_prop data "message")
         (VStr "Transaction submitted to dark pool").
Proof. repeat split. Qed.

(** X1: when the body of the response cannot be read as JSON, whatever the
    status of the response, the handler ends in its [catch] block: the
    result is [success: false] with "Failed to submit transaction: " and the
    text of that error, usage 10, after the one request went out and the
    error was logged.  A non-success status is not reported in that case. *)
Theorem unreadable_body_is_caught
  (env : process_env) (input : SubmitInput) (w : world)
  (apiKey : string) (r : response) (e : error) :
  set_and_nonempty (INTERNAL_API_KEY env) = Some apiKey ->
  backend w (submit_request (backendUrl env) apiKey input) = Normal r ->
  json r = Throw e ->
  handler env input w
  = (Normal {| output :=
                 VObj [ ("success", VBool false);
                        ("message",
                         VStr ("Failed to submit transaction: "
                               ++ JS.message e)) ];
               usage := {| total_tokens := 10 |} |},
     logged "Error forwarding to backend:" e
       (sent (submit_request (backendUrl env) apiKey input) w)).
Proof.
  intros K B J. now rewrite (handler_json_rejects env input w K B J).
Qed.

Lemma unreadable_body_is_caught_witness :
  returned (handler env_with_key sample_input
              (fresh (replies 502
                        (Throw {| name := "SyntaxError";
                                  message := "Unexpected token <" |}))))
  = Some {| output :=
              VObj [ ("success", VBool false);
                     ("message",
                      VStr "Failed to submit transaction: Unexpected token <") ];
            usage := {| total_tokens := 10 |} |}.
Proof.
  rewrite (@unreadable_body_is_caught env_with_key sample_input
             (fresh (replies 502 _)) "s3cret" _ _ eq_refl eq_refl eq_refl).
  reflexivity.
Defined.

(** X2: when the body parses to the JSON value [null], on a success status
    as on any other, the first property read throws a [TypeError] that the
    [catch] block turns into a failed submission: nothing of the response is
    relayed, the usage is 10, and the error is logged. *)
Theorem null_body_is_caught
  (env : process_env) (input : SubmitInput) (w : world)
  (apiKey : string) (r : response) :
  set_and_nonempty (INTERNAL_API_KEY env) = Some apiKey ->
  backend w (submit_request (backendUrl env) apiKey input) = Normal r ->
  json r = Normal VNull ->
  exists e : error,
    JS.name e = "TypeError"
    /\ handler env input w
       = (Normal {| output :=
                      VObj [ ("success", VBool false);
                             ("message",
                              VStr ("Failed to submit transaction: "
                                    ++ JS.message e)) ];
                    usage := {| total_tokens := 10 |} |},
          logged "Error forwarding to backend:" e
            (sent (submit_request (backendUrl env) apiKey input) w)).
Proof.
  intros K B J.
  exists (cannot_read VNull (if ok r then "success" else "error")).
  split; [reflexivity|].
  now rewrite (handler_nullish_body env input w K B J eq_refl).
Qed.

Lemma null_body_is_caught_witness :
  option_map (fun h => (output_field "success" h, total_tokens (usage h)))
    (returned (handler env_with_key sample_input
                 (fresh (replies 200 (Normal VNull)))))
  = Some (VBool false, 10%N).
Proof.
  destruct (@null_body_is_caught env_with_key sample_input
              (fresh (replies 200 (Normal VNull))) "s3cret" _
              eq_refl eq_refl eq_refl) as (e & _ & E).
  rewrite E. reflexivity.
Defined.

(** X3: the handler writes to the error log exactly when it ends in its
    [catch] block, and then adds one entry, labelled "Error forwarding to
    backend:" and carrying the error whose text the result reports.  With no
    credential, and whenever a response body was read and is not [null], the
    log is left as it was.  A failed call logs the error of the call; a body
    that cannot be read logs the error of reading it; a [null] body logs the
    [TypeError] of the first property read. *)
Theorem logs_exactly_when_caught
  (env : process_env) (input : SubmitInput) (w : world) :
  exists (h : HandlerResult) (w' : world),
    handler env input w = (Normal h, w')
    /\ (console w' = console w
        \/ exists e,
             console w'
             = (console w ++ [("Error forwarding to backend:", e)])%list
             /\ h = failure (VStr ("Failed to submit transaction: "
                                   ++ JS.message e)))
    /\ (set_and_nonempty (INTERNAL_API_KEY env) = None ->
        console w' = console w)
    /\ (forall k r data,
          set_and_nonempty (INTERNAL_API_KEY env) = Some k ->
          backend w (submit_request (backendUrl env) k input) = Normal r ->
          json r = Normal data -> nullish data = false ->
          console w' = console w)
    /\ (forall k e,
          set_and_nonempty (INTERNAL_API_KEY env) = Some k ->
          backend w (submit_request (backendUrl env) k input) = Throw e ->
          console w'
          = (console w ++ [("Error forwarding to backend:", e)])%list
          /\ h = failure (VStr ("Failed to submit transaction: "
                                ++ JS.message e)))
    /\ (forall k r e,
          set_and_nonempty (INTERNAL_API_KEY env) = Some k ->
          backend w (submit_request (backendUrl env) k input) = Normal r ->
          json r = Throw e ->
          console w'
          = (console w ++ [("Error forwarding to backend:", e)])%list
          /\ h = failure (VStr ("Failed to submit transaction: "
                                ++ JS.message e)))
    /\ (forall k r data,
          set_and_nonempty (INTERNAL_API_KEY env) = Some k ->
          backend w (submit_request (backendUrl env) k input) = Normal r ->
          json r = Normal data -> nullish data = true ->
          exists e,
            JS.name e = "TypeError"
            /\ console w'
               = (console w ++ [("Error forwarding to backend:", e)])%list
            /\ h = failure (VStr ("Failed to submit transaction: "
                                  ++ JS.message e))).
Proof.
  destruct (handler_cases env input w)
    as [[K E] | [(k & e & K & P & E)
                | [(k & r & d & K & B & J & Nl & O & E)
                  | (k & r & d & K & B & J & Nl & O & E)]]];
    rewrite E; eexists; eexists; (split; [reflexivity|]).
  - split; [now left|]. repeat split; intros; congruence.
  - split; [right; exists e; split; reflexivity|].
    split; [congruence|].
    split; [| split; [| split]].
    + intros k' r' d' K' B' J' Nl'. same k' k.
      destruct P as [B | (r0 & B & [J | (d0 & J & Nl & _)])]; congruence.
    + intros k' e' K' B'. same k' k.
      destruct P as [B | (r0 & B & _)]; [| congruence].
      same e' e. split; reflexivity.
    + intros k' r' e' K' B' J'. same k' k.
      destruct P as [B | (r0 & B & [J | (d0 & J & _)])]; try congruence.
      same r' r0. same e' e. split; reflexivity.
    + intros k' r' d' K' B' J' Nl'. same k' k.
      destruct P as [B | (r0 & B & [J | (d0 & J & _ & He)])]; try congruence.
      same r' r0. same d' d0.
      exists e. subst e. repeat split.
  - split; [now left|].
    repeat split; intros; try reflexivity; congruence.
  - split; [now left|].
    repeat split; intros; try reflexivity; congruence.
Qed.

Lemma logs_exactly_when_caught_witness :
  console (snd (handler env_with_key sample_input
                  (fresh (unreachable ECONNREFUSED))))
  = [("Error forwarding to backend:", ECONNREFUSED)]
  /\
  console (snd (handler env_with_key sample_input
                  (fresh (replies 503 (Normal (VObj []))))))
  = [].
Proof.
  split.
  - destruct (logs_exactly_when_caught env_with_key sample_input
                (fresh (unreachable ECONNREFUSED)))
      as (h & w' & E & _ & _ & _ & L & _ & _).
    rewrite E. exact (proj1 (L "s3cret" ECONNREFUSED eq_refl eq_refl)).
  - destruct (logs_exactly_when_caught env_with_key sample_input
                (fresh (replies 503 (Normal (VObj [])))))
      as (h & w' & E & _ & _ & Q & _ & _ & _).
    rewrite E. exact (Q "s3cret" _ _ eq_refl eq_refl eq_refl eq_refl).
Defined.

(** X4: the handler reports [success: true] only when the backend did: the
    credential was present, the response had a success status, and the
    [success] field of its body was [true]. *)
Theorem success_only_from_backend
  (env : process_env) (input : SubmitInput) (w w' : world)
  (h : HandlerResult) :
  handler env input w = (Normal h, w') ->
  output_field "success" h = VBool true ->
  exists k r data,
    set_and_nonempty (INTERNAL_API_KEY env) = Some k
    /\ backend w (submit_request (backendUrl env) k input) = Normal r
    /\ ok r = true
    /\ json r = Normal data
    /\ own_prop data "success" = VBool true.
Proof.
  intros H S.
  destruct (handler_cases env input w)
    as [[K E] | [(k & e & K & P & E)
                | [(k & r & d & K & B & J & Nl & O & E)
                  | (k & r & d & K & B & J & Nl & O & E)]]];
    rewrite E in H; injection H as <- <-;
    try (rewrite output_field_failure in S; discriminate).
  exists k, r, d. repeat split; try assumption.
Qed.

Lemma success_only_from_backend_witness :
  exists k r data,
    set_and_nonempty (INTERNAL_API_KEY env_with_key) = Some k
    /\ backend (fresh (replies 201 (Normal (VObj [("success", VBool true)]))))
         (submit_request (backendUrl env_with_key) k sample_input)
       = Normal r
    /\ ok r = true
    /\ json r = Normal data
    /\ own_prop data "success" = VBool true.
Proof.
  exact (@success_only_from_backend env_with_key sample_input
           (fresh (replies 201 (Normal (VObj [("success", VBool true)]))))
           _ _ eq_refl eq_refl).
Defined.

(** X5: a [transaction_id] or an [estimated_execution] in the result is
    never made up by the handler: whenever the result carries one, the
    response had a success status and its body carried that very value
    under the same key. *)
Theorem identifiers_only_from_backend
  (env : process_env) (input : SubmitInput) (w w' : world)
  (h : HandlerResult) (key : string) :
  handler env input w = (Normal h, w') ->
  key = "transaction_id" \/ key = "estimated_execution" ->
  output_field key h <> VUndefined ->
  exists k r data,
    set_and_nonempty (INTERNAL_API_KEY env) = Some k
    /\ backend w (submit_request (backendUrl env) k input) = Normal r
    /\ ok r = true
    /\ json r = Normal data
    /\ own_prop data key = output_field key h.
Proof.
  intros H Hk Hv.
  destruct (handler_cases env input w)
    as [[K E] | [(k & e & K & P & E)
                | [(k & r & d & K & B & J & Nl & O & E)
                  | (k & r & d & K & B & J & Nl & O & E)]]];
    rewrite E in H; injection H as <- <-;
    try (rewrite output_field_failure in Hv;
         destruct Hk as [-> | ->]; now elim Hv).
  exists k, r, d. repeat split; try assumption.
  destruct Hk as [-> | ->]; symmetry; apply output_field_relayed.
Qed.

Lemma identifiers_only_from_backend_witness :
  exists k r data,
    set_and_nonempty (INTERNAL_API_KEY env_with_key) = Some k
    /\ backend (fresh (replies 200
                         (Normal (VObj [ ("success", VBool false);
                                         ("transaction_id", VStr "tx9") ]))))
         (submit_request (backendUrl env_with_key) k sample_input)
       = Normal r
    /\ ok r = true
    /\ json r = Normal data
    /\ own_prop data "transaction_id" = VStr "tx9".
Proof.
  refine (@identifiers_only_from_backend env_with_key sample_input
            (fresh (replies 200
                      (Normal (VObj [ ("success", VBool false);
                                      ("transaction_id", VStr "tx9") ]))))
            _ _ "transaction_id" eq_refl (or_introl eq_refl) _).
  discriminate.
Defined.

(** X6: on every path, whatever the backend answers, the message of the
    result is truthy; in particular it is never the empty text. *)
Theorem message_is_never_empty
  (env : process_env) (input : SubmitInput) (w : world) :
  exists (h : HandlerResult) (w' : world),
    handler env input w = (Normal h, w')
    /\ truthy (output_field "message" h) = true
    /\ output_field "message" h <> VStr "".
Proof.
  assert (Ne : forall v, truthy v = true -> v <> VStr "")
    by (intros v T ->; discriminate).
  destruct (handler_cases env input w)
    as [[K E] | [(k & e & K & P & E)
                | [(k & r & d & K & B & J & Nl & O & E)
                  | (k & r & d & K & B & J & Nl & O & E)]]];
    rewrite E; eexists; eexists; (split; [reflexivity|]).
  - split; [reflexivity | discriminate].
  - unfold caught. rewrite output_field_failure. cbn [String.eqb].
    split; [reflexivity | discriminate].
  - rewrite output_field_failure. cbn [String.eqb].
    assert (T : truthy (or_else (own_prop d "error")
                          (VStr ("Backend error: " ++ to_string (status r))))
                = true)
      by (apply or_else_default_truthy; discriminate).
    split; [exact T | exact (Ne _ T)].
  - rewrite (proj2 (proj2 (proj2 (output_field_relayed d)))).
    assert (T : truthy (or_else (own_prop d "message")
                          (VStr "Transaction submitted to dark pool")) = true)
      by (apply or_else_default_truthy; discriminate).
    split; [exact T | exact (Ne _ T)].
Qed.

(** X7: a body that is a JSON number, text, boolean or array has none of
    the fields the handler reads.  On a success status it is relayed as a
    result with [success], [transaction_id] and [estimated_execution]
    undefined and the default message, with usage 50; on any other status
    the message is "Backend error: " followed by the status. *)
Theorem non_object_body_has_no_fields
  (env : process_env) (input : SubmitInput) (w : world)
  (apiKey : string) (r : response) (data : value) :
  set_and_nonempty (INTERNAL_API_KEY env) = Some apiKey ->
  backend w (submit_request (backendUrl env) apiKey input) = Normal r ->
  json r = Normal data ->
  nullish data = false ->
  (forall props, data <> VObj props) ->
  handler env input w
  = (Normal
       (if ok r
        then {| output :=
                  VObj [ ("success", VUndefined);
                         ("transaction_id", VUndefined);
                         ("message",
                          VStr "Transaction submitted to dark pool");
                         ("estimated_execution", VUndefined) ];
                usage := {| total_tokens := 50 |} |}
        else {| output :=
                  VObj [ ("success", VBool false);
                         ("message",
                          VStr ("Backend error: "
                                ++ to_string (status r))) ];
                usage := {| total_tokens := 10 |} |}),
     sent (submit_request (backendUrl env) apiKey input) w).
Proof.
  intros K B J Nl NObj.
  assert (U : forall k, own_prop data k = VUndefined).
  { intros k. destruct data; try reflexivity. now elim (NObj props). }
  destruct (ok r) eqn:O.
  - rewrite (handler_ok env input w K B J Nl O). unfold relayed.
    now rewrite !U.
  - rewrite (handler_not_ok env input w K B J Nl O). now rewrite U.
Qed.

Lemma non_object_body_has_no_fields_witness :
  returned (handler env_with_key sample_input
              (fresh (replies 200 (Normal (VStr "ok")))))
  = Some {| output :=
              VObj [ ("success", VUndefined);
                     ("transaction_id", VUndefined);
                     ("message", VStr "Transaction submitted to dark pool");
                     ("estimated_execution", VUndefined) ];
            usage := {| total_tokens := 50 |} |}
  /\
  returned (handler env_with_key sample_input
              (fresh (replies 500 (Normal (VArr [VStr "down"])))))
  = Some {| output :=
              VObj [ ("success", VBool false);
                     ("message", VStr "Backend error: 500") ];
            usage := {| total_tokens := 10 |} |}.
Proof.
  split.
  - rewrite (@non_object_body_has_no_fields env_with_key sample_input
               (fresh (replies 200 (Normal (VStr "ok")))) "s3cret" _ _
               eq_refl eq_refl eq_refl eq_refl);
      [reflexivity | discriminate].
  - rewrite (@non_object_body_has_no_fields env_with_key sample_input
               (fresh (replies 500 (Normal (VArr [VStr "down"])))) "s3cret"
               _ _ eq_refl eq_refl eq_refl eq_refl);
      [reflexivity | discriminate].
Defined.

(** What was sent and logged before does not enter the result: two worlds
    with the same backend give the same result. *)
Lemma handler_history_free
  (env : process_env) (input : SubmitInput) (w1 w2 : world) :
  backend w1 = backend w2 ->
  fst (handler env input w1) = fst (handler env input w2).
Proof.
  intros H. unfold handler.
  destruct (set_and_nonempty (INTERNAL_API_KEY env)) as [k|]; [|reflexivity].
  unfold try_catch, bind, fetch, response_json. rewrite H.
  destruct (backend w2 _) as [r|e]; [|reflexivity].
  destruct (json r) as [d|e]; [|reflexivity].
  unfold get_prop.
  destruct (ok r); simpl; destruct (nullish d); reflexivity.
Qed.

Lemma handler_keeps_backend
  (env : process_env) (input : SubmitInput) (w : world) :
  backend (snd (handler env input w)) = backend w.
Proof.
  destruct (handler_cases env input w)
    as [[K E] | [(k & e & K & P & E)
                | [(k & r & d & K & B & J & Nl & O & E)
                  | (k & r & d & K & B & J & Nl & O & E)]]];
    rewrite E; reflexivity.
Qed.

Lemma handler_sends_one
  (env : process_env) (input : SubmitInput) (w : world) (k : string) :
  set_and_nonempty (INTERNAL_API_KEY env) = Some k ->
  outbound (snd (handler env input w))
  = (outbound w ++ [submit_request (backendUrl env) k input])%list.
Proof.
  intros K.
  destruct (handler_cases env input w)
    as [[K' _] | [(k' & e & K' & _ & ->)
                 | [(k' & r & d & K' & _ & _ & _ & _ & ->)
                   | (k' & r & d & K' & _ & _ & _ & _ & ->)]]];
    rewrite K in K'; inversion K'; subst; reflexivity.
Qed.

(** X8: the handler never looks into the input to decide its result: two
    invocations with different inputs, in worlds with different histories,
    return the same result and usage as soon as the backend gives their
    requests the same answer. *)
Theorem result_ignores_input
  (env : process_env) (i1 i2 : SubmitInput) (w1 w2 : world) :
  (forall k,
      set_and_nonempty (INTERNAL_API_KEY env) = Some k ->
      backend w1 (submit_request (backendUrl env) k i1)
      = backend w2 (submit_request (backendUrl env) k i2)) ->
  fst (handler env i1 w1) = fst (handler env i2 w2).
Proof.
  intros H. unfold handler.
  destruct (set_and_nonempty (INTERNAL_API_KEY env)) as [k|]; [|reflexivity].
  specialize (H k eq_refl).
  unfold try_catch, bind, fetch, response_json. rewrite H.
  destruct (backend w2 _) as [r|e]; [|reflexivity].
  destruct (json r) as [d|e]; [|reflexivity].
  unfold get_prop.
  destruct (ok r); simpl; destruct (nullish d); reflexivity.
Qed.

Lemma result_ignores_input_witness :
  fst (handler env_with_key sample_input
         (fresh (replies 200 (Normal (VObj [("success", VBool true)])))))
  = fst (handler env_with_key
           {| agent_id := "other"; target_endpoint := "https://b.example";
              request_payload := []; payment_amount := "999.99" |}
           (sent (submit_request "x" "y" sample_input)
              (fresh (replies 200 (Normal (VObj [("success", VBool true)])))))).
Proof.
  apply (@result_ignores_input env_with_key sample_input
           {| agent_id := "other"; target_endpoint := "https://b.example";
              request_payload := []; payment_amount := "999.99" |}
           (fresh (replies 200 (Normal (VObj [("success", VBool true)]))))
           (sent (submit_request "x" "y" sample_input)
              (fresh (replies 200
                        (Normal (VObj [("success", VBool true)])))))).
  intros k _. reflexivity.
Defined.

(** X9: the handler keeps nothing between calls.  Calling it a second time
    with the same input, against a backend whose answer depends on the
    request only, returns the same result and usage as the first call, and
    with the credential present the same request has then gone out twice. *)
Theorem second_call_repeats_first
  (env : process_env) (input : SubmitInput) (w : world) :
  let first := handler env input w in
  let second := handler env input (snd first) in
  fst second = fst first
  /\ (forall k,
         set_and_nonempty (INTERNAL_API_KEY env) = Some k ->
         outbound (snd second)
         = (outbound w ++ [ submit_request (backendUrl env) k input;
                            submit_request (backendUrl env) k input ])%list)
  /\ (set_and_nonempty (INTERNAL_API_KEY env) = None -> snd second = w).
Proof.
  cbv zeta. split; [|split].
  - apply handler_history_free, handler_keeps_backend.
  - intros k K. rewrite !(handler_sends_one env input _ K).
    now rewrite <- app_assoc.
  - intros K. now rewrite !(handler_no_key env input _ K).
Qed.

Lemma second_call_repeats_first_witness :
  length (outbound
            (snd (handler env_with_key sample_input
                    (snd (handler env_with_key sample_input
                            (fresh (replies 503 (Normal (VObj [])))))))))
  = 2.
Proof.
  destruct (second_call_repeats_first env_with_key sample_input
              (fresh (replies 503 (Normal (VObj []))))) as (_ & O & _).
  cbv zeta in O. now rewrite (O "s3cret" eq_refl).
Defined.

(** ** Further properties: the input schema *)

Lemma amount_accepted_iff (s : string) :
  Zod.accepts payment_amount_schema (VStr s) = true
  <-> Spec.two_decimal_amount s.
Proof.
  unfold payment_amount_schema, payment_amount_pattern.
  cbn [Zod.accepts forallb Zod.check_ok]. rewrite andb_true_r.
  rewrite test_anchored.
  cbn [ends]. rewrite matched_flat_map, existsb_exists.
  unfold Spec.two_decimal_amount. cbn [snd].
  split.
  - intros ([j t] & Hin & Hm).
    apply plus_digit_ends in Hin; [| lia].
    destruct Hin as (ip & Hne & Hd & Hl & _).
    apply point_two_digits_end in Hm as (d1 & d2 & D1 & D2 & ->).
    now exists ip, d1, d2.
  - intros (ip & d1 & d2 & Hne & Hd & D1 & D2 & Hl).
    exists (length ip, ["."%char; d1; d2]). split.
    + apply plus_digit_ends; [lia|]. now exists ip.
    + apply point_two_digits_end. now exists d1, d2.
Qed.

Lemma agent_id_accepted_iff (v : value) :
  Zod.accepts agent_id_schema v = true
  <-> exists a, v = VStr a /\ a <> "".
Proof.
  unfold agent_id_schema. split.
  - destruct v; try discriminate. cbn. rewrite andb_true_r.
    intros H. exists s. split; [reflexivity|].
    intros ->. discriminate.
  - intros (a & -> & Ha). cbn. rewrite andb_true_r.
    destruct a; [now elim Ha | reflexivity].
Qed.

(** X10: [DarkPoolSubmitInputSchema] accepts a value exactly when it is an
    object whose [agent_id] is a non-empty text, whose [target_endpoint] is
    a text that the URL check passes, whose [request_payload] is an object,
    and whose [payment_amount] is a text of digits, a point and two digits.
    A missing key, a value of another type under one of the four keys, and
    any input that is not an object are rejected; other keys do not
    matter. *)
Theorem input_schema_accepts_iff (is_url : string -> bool) (v : value) :
  InputSchema.accepts is_url DarkPoolSubmitInputSchema v = true
  <-> exists props a t p m,
        v = VObj props
        /\ lookup "agent_id" props = Some (VStr a) /\ a <> ""
        /\ lookup "target_endpoint" props = Some (VStr t) /\ is_url t = true
        /\ lookup "request_payload" props = Some (VObj p)
        /\ lookup "payment_amount" props = Some (VStr m)
        /\ Spec.two_decimal_amount m.
Proof.
  split.
  - destruct v as [| | | | |items|props]; try discriminate.
    unfold InputSchema.accepts, DarkPoolSubmitInputSchema.
    cbn [forallb fst snd InputSchema.field_accepts own_prop].
    rewrite !andb_true_iff. intros (A & T & P & M & _).
    apply agent_id_accepted_iff in A as (a & Ea & Ha).
    destruct (lookup "agent_id" props) as [va|] eqn:La; [|discriminate].
    subst va.
    destruct (lookup "target_endpoint" props) as [[| | | |t| |]|] eqn:Lt;
      try discriminate.
    destruct (lookup "request_payload" props) as [[| | | | | |p]|] eqn:Lp;
      try discriminate.
    destruct (lookup "payment_amount" props) as [[| | | |m| |]|] eqn:Lm;
      try discriminate.
    apply amount_accepted_iff in M.
    exists props, a, t, p, m. repeat split; assumption.
  - intros (props & a & t & p & m & -> & A & Ha & T & U & P & M & D).
    unfold InputSchema.accepts, DarkPoolSubmitInputSchema.
    cbn [forallb fst snd InputSchema.field_accepts own_prop].
    rewrite A, T, P, M, U.
    rewrite (proj2 (amount_accepted_iff m) D).
    rewrite (proj2 (agent_id_accepted_iff (VStr a)));
      [reflexivity | now exists a].
Qed.

Lemma input_schema_accepts_iff_witness :
  InputSchema.accepts (fun _ => true) DarkPoolSubmitInputSchema
    (VObj [ ("agent_id", VStr "agent-7");
            ("target_endpoint", VStr "https://api.example/pay");
            ("request_payload", VObj []);
            ("payment_amount", VStr "10.00");
            ("note", VNull) ])
  = true.
Proof.
  apply (input_schema_accepts_iff (fun _ => true)).
  exists [ ("agent_id", VStr "agent-7");
           ("target_endpoint", VStr "https://api.example/pay");
           ("request_payload", VObj []);
           ("payment_amount", VStr "10.00");
           ("note", VNull) ],
         "agent-7", "https://api.example/pay", [], "10.00".
  repeat split; try reflexivity; try discriminate.
  now exists ["1"%char; "0"%char], "0"%char, "0"%char.
Defined.

(** ** Further properties: the port and the base URL *)

Import Startup.

(** Closes a goal [b = false] on comparisons of code units by arithmetic. *)
Ltac bool_false :=
  lazymatch goal with
  | |- (_ || _) = false => apply orb_false_iff; split; bool_false
  | |- (_ && _) = false =>
      apply andb_false_iff; ((left; bool_false) || (right; bool_false))
  | |- (_ <=? _)%N = false => apply N.leb_gt; lia
  | |- (_ <? _)%N = false => apply N.ltb_ge; lia
  | |- (_ =? _)%N = false => apply N.eqb_neq; lia
  end.

Lemma decimal_digit_range (c : N) :
  is_decimal_digit c = true <-> (48 <= c <= 57)%N.
Proof.
  unfold is_decimal_digit. rewrite andb_true_iff, !N.leb_le. tauto.
Qed.

Lemma digit_is_plain (c : N) :
  is_decimal_digit c = true ->
  is_space c = false
  /\ (c =? 45)%N = false /\ (c =? 43)%N = false
  /\ ((c =? 120) || (c =? 88))%N = false
  /\ digit_value 10 c = Some (c - 48)%N.
Proof.
  intros H. pose proof (proj1 (decimal_digit_range c) H) as R.
  repeat split; try (unfold is_space; bool_false).
  unfold digit_value. fold (is_decimal_digit c). rewrite H.
  replace (c - 48 <? 10)%N with true; [reflexivity|].
  symmetry. apply N.ltb_lt. lia.
Qed.

Lemma non_digit_is_no_digit (c : N) :
  is_decimal_digit c = false ->
  digit_value 10 c = None /\ (c =? 48)%N = false.
Proof.
  intros H.
  assert (R : ~ (48 <= c <= 57)%N)
    by (intros R; apply decimal_digit_range in R; congruence).
  split; [| bool_false].
  unfold digit_value. fold (is_decimal_digit c). rewrite H.
  destruct ((97 <=? c) && (c <=? 122))%N eqn:Lo.
  - apply andb_true_iff in Lo as [L1 L2]. apply N.leb_le in L1, L2.
    replace (c - 87 <? 10)%N with false; [reflexivity|].
    symmetry. bool_false.
  - destruct ((65 <=? c) && (c <=? 90))%N eqn:Up; [| reflexivity].
    apply andb_true_iff in Up as [U1 U2]. apply N.leb_le in U1, U2.
    replace (c - 55 <? 10)%N with false; [reflexivity|].
    symmetry. bool_false.
Qed.

Lemma trim_start_spaces (ws : list N) (c : N) (rest : list N) :
  forallb is_space ws = true -> is_space c = false ->
  trim_start (ws ++ c :: rest) = c :: rest.
Proof.
  intros Hws Hc. induction ws as [|x ws IH]; simpl.
  - now rewrite Hc.
  - simpl in Hws. apply andb_true_iff in Hws as [Hx Hws].
    rewrite Hx. now apply IH.
Qed.

(** Digits are read up to the first code unit that is none. *)
Lemma leading_decimal_digits (ds rest : list N) :
  forallb is_decimal_digit ds = true ->
  match rest with [] => True | c :: _ => is_decimal_digit c = false end ->
  leading_digits 10 (ds ++ rest) = map (fun c => (c - 48)%N) ds.
Proof.
  intros Hds Hrest. induction ds as [|d ds IH]; simpl.
  - destruct rest as [|c rest]; [reflexivity|].
    simpl. now rewrite (proj1 (non_digit_is_no_digit c Hrest)).
  - simpl in Hds. apply andb_true_iff in Hds as [Hd Hds].
    destruct (digit_is_plain d Hd) as (_ & _ & _ & _ & ->).
    now rewrite IH.
Qed.

Lemma math_int_decimal (ds : list N) :
  math_int 10 (map (fun c => (c - 48)%N) ds) = decimal_value ds.
Proof.
  unfold math_int, decimal_value. generalize 0%N.
  induction ds as [|d ds IH]; intros acc; simpl; [reflexivity | apply IH].
Qed.

(** [parseInt] on white space, then a maximal run of decimal digits that is
    not the "0" of a hexadecimal prefix, then anything. *)
Lemma parseInt_digits (ws ds rest : list N) :
  forallb is_space ws = true ->
  ds <> [] ->
  forallb is_decimal_digit ds = true ->
  match rest with
  | [] => True
  | c :: _ =>
      is_decimal_digit c = false
      /\ (ds = [48%N] -> c <> 120%N /\ c <> 88%N)
  end ->
  parseInt (ws ++ ds ++ rest)
  = if (decimal_value ds <=? exact_bound)%N
    then Int false (decimal_value ds) else Beyond.
Proof.
  intros Hws Hne Hds Hrest. unfold parseInt.
  destruct ds as [|d ds]; [now elim Hne|].
  assert (Hd : is_decimal_digit d = true)
    by (simpl in Hds; now apply andb_true_iff in Hds as [? _]).
  destruct (digit_is_plain d Hd) as (Sp & Mi & Pl & _ & _).
  change (ws ++ (d :: ds) ++ rest)%list with (ws ++ d :: (ds ++ rest))%list.
  rewrite (trim_start_spaces ws d (ds ++ rest) Hws Sp), Mi, Pl.
  cbn [snd fst].
  assert (Hp : (match (ds ++ rest)%list with
                | x :: tl =>
                    if ((d =? 48) && ((x =? 120) || (x =? 88)))%N
                    then (16%N, tl)
                    else (10%N, d :: (ds ++ rest)%list)
                | [] => (10%N, [d])
                end) = (10%N, d :: (ds ++ rest)%list)).
  { destruct ds as [|d' ds]; cbn [app].
    - destruct rest as [|c rest]; [reflexivity|].
      destruct Hrest as (_ & Hx).
      destruct (N.eqb_spec d 48) as [-> | Nz]; [| reflexivity].
      destruct (Hx eq_refl) as [Nx NX].
      apply N.eqb_neq in Nx, NX. now rewrite Nx, NX.
    - simpl in Hds. apply andb_true_iff in Hds as [_ Hds].
      apply andb_true_iff in Hds as [Hd' _].
      destruct (digit_is_plain d' Hd') as (_ & _ & _ & -> & _).
      now rewrite andb_false_r. }
  rewrite Hp. cbn [fst snd].
  change (d :: (ds ++ rest))%list with ((d :: ds) ++ rest)%list.
  rewrite leading_decimal_digits.
  - rewrite <- (math_int_decimal (d :: ds)). reflexivity.
  - exact Hds.
  - destruct rest; [exact I | apply Hrest].
Qed.

Lemma parseInt_no_digit (ws sign : list N) (c : N) (rest : list N) :
  forallb is_space ws = true ->
  (sign = [] /\ is_space c = false /\ c <> 45%N /\ c <> 43%N)
  \/ sign = [45%N] \/ sign = [43%N] ->
  is_decimal_digit c = false ->
  parseInt (ws ++ sign ++ c :: rest) = NaN.
Proof.
  intros Hws Hsign Hc. unfold parseInt.
  destruct (non_digit_is_no_digit c Hc) as [Dv Z].
  assert (Tail : forall neg,
             match
               leading_digits
                 (fst match c :: rest with
                      | z :: x :: r0 =>
                          if ((z =? 48) && ((x =? 120) || (x =? 88)))%N
                          then (16%N, r0) else (10%N, c :: rest)
                      | other => (10%N, other)
                      end)
                 (snd match c :: rest with
                      | z :: x :: r0 =>
                          if ((z =? 48) && ((x =? 120) || (x =? 88)))%N
                          then (16%N, r0) else (10%N, c :: rest)
                      | other => (10%N, other)
                      end)
             with
             | [] => NaN
             | n :: l =>
                 if (math_int
                       (fst match c :: rest with
                            | z :: x :: r0 =>
                                if ((z =? 48) && ((x =? 120) || (x =? 88)))%N
                                then (16%N, r0) else (10%N, c :: rest)
                            | other => (10%N, other)
                            end) (n :: l) <=? exact_bound)%N
                 then Int neg
                        (math_int
                           (fst match c :: rest with
                                | z :: x :: r0 =>
                                    if ((z =? 48)
                                        && ((x =? 120) || (x =? 88)))%N
                                    then (16%N, r0) else (10%N, c :: rest)
                                | other => (10%N, other)
                                end) (n :: l))
                 else Beyond
             end = NaN).
  { intros neg. destruct rest as [|x r0]; cbn [fst snd leading_digits].
    - now rewrite Dv.
    - rewrite Z. cbn [andb fst snd leading_digits]. now rewrite Dv. }
  destruct Hsign as [(-> & Sp & Mi & Pl) | [-> | ->]].
  - cbn [app]. rewrite (trim_start_spaces ws c rest Hws Sp).
    apply N.eqb_neq in Mi, Pl. rewrite Mi, Pl. cbn [snd fst].
    apply Tail.
  - cbn [app]. rewrite (trim_start_spaces ws 45 (c :: rest) Hws eq_refl).
    change (45 =? 45)%N with true. cbn [snd fst]. apply Tail.
  - cbn [app]. rewrite (trim_start_spaces ws 43 (c :: rest) Hws eq_refl).
    change (43 =? 45)%N with false. change (43 =? 43)%N with true.
    cbn [snd fst]. apply Tail.
Qed.

Lemma filled_is_set (c : N) (l : list N) :
  set_and_filled (Some (c :: l)) = Some (c :: l).
Proof. reflexivity. Qed.

(** X11: a [PORT] variable whose first code unit after white space (any
    white space or line terminator of the language, not only the 8-bit
    ones) and an optional sign is not a decimal digit gives a port that is
    [NaN]; unless [BASE_URL] is set, the advertised base URL is then
    "http://localhost:NaN". *)
Theorem port_without_digit_is_NaN
  (env : startup_env) (ws sign : list N) (c : N) (rest : list N) :
  env_PORT env = Some (ws ++ sign ++ c :: rest)%list ->
  forallb is_space ws = true ->
  (sign = [] /\ is_space c = false /\ c <> 45%N /\ c <> 43%N)
  \/ sign = [45%N] \/ sign = [43%N] ->
  is_decimal_digit c = false ->
  PORT env = NaN
  /\ (set_and_filled (env_BASE_URL env) = None ->
      BASE_URL env = Some (units_of "http://localhost:NaN")).
Proof.
  intros Hp Hws Hsign Hc.
  assert (P : PORT env = NaN).
  { unfold PORT. rewrite Hp.
    assert (Hset : set_and_filled (Some (ws ++ sign ++ c :: rest)%list)
                   = Some (ws ++ sign ++ c :: rest)%list).
    { destruct (ws ++ sign ++ c :: rest)%list as [|x l] eqn:E;
        [| reflexivity].
      destruct ws; [destruct sign|]; discriminate. }
    rewrite Hset. now apply parseInt_no_digit. }
  split; [exact P|].
  intros B. unfold BASE_URL. now rewrite B, P.
Qed.

Lemma port_without_digit_is_NaN_witness :
  PORT {| env_PORT := Some (12288%N :: units_of "-port");
          env_BASE_URL := None |} = NaN
  /\ BASE_URL {| env_PORT := Some (12288%N :: units_of "-port");
                 env_BASE_URL := None |}
     = Some (units_of "http://localhost:NaN").
Proof.
  destruct (@port_without_digit_is_NaN
              {| env_PORT := Some (12288%N :: units_of "-port");
                 env_BASE_URL := None |}
              [12288%N] [45%N] 112%N (units_of "ort")
              eq_refl eq_refl (or_intror (or_introl eq_refl)) eq_refl)
    as [P B].
  split; [exact P | exact (B eq_refl)].
Defined.

(** X12: a [PORT] variable that, after white space, begins with a run of
    decimal digits gives the value of that run as port, as long as that
    value is at most [2^53] (beyond, the port is a rounded Number that is
    not computed): leading zeros do not count and whatever follows the run
    is ignored.  The run is taken whole (what follows is not a digit), and
    a lone "0" followed by "x" or "X" is excluded, that being a hexadecimal
    prefix.  Unless [BASE_URL] is set, the advertised base URL is
    "http://localhost:" followed by that value in decimal. *)
Theorem port_reads_leading_digits
  (env : startup_env) (ws ds rest : list N) :
  env_PORT env = Some (ws ++ ds ++ rest)%list ->
  forallb is_space ws = true ->
  ds <> [] ->
  forallb is_decimal_digit ds = true ->
  match rest with
  | [] => True
  | c :: _ =>
      is_decimal_digit c = false
      /\ (ds = [48%N] -> c <> 120%N /\ c <> 88%N)
  end ->
  PORT env = (if (decimal_value ds <=? exact_bound)%N
              then Int false (decimal_value ds) else Beyond)
  /\ ((decimal_value ds <= exact_bound)%N ->
      set_and_filled (env_BASE_URL env) = None ->
      BASE_URL env
      = Some (units_of "http://localhost:"
              ++ units_of (to_string (decimal_value ds)))%list).
Proof.
  intros Hp Hws Hne Hds Hrest.
  assert (P : PORT env = (if (decimal_value ds <=? exact_bound)%N
                          then Int false (decimal_value ds) else Beyond)).
  { unfold PORT. rewrite Hp.
    assert (Hset : set_and_filled (Some (ws ++ ds ++ rest)%list)
                   = Some (ws ++ ds ++ rest)%list).
    { destruct ds as [|d ds]; [now elim Hne|].
      destruct ws as [|x ws]; reflexivity. }
    rewrite Hset. now apply parseInt_digits. }
  split; [exact P|].
  intros Le B. unfold BASE_URL. rewrite B, P.
  apply N.leb_le in Le. rewrite Le. unfold number_text. now rewrite Le.
Qed.

Lemma port_reads_leading_digits_witness :
  PORT {| env_PORT := Some (160%N :: units_of "03000x/tcp");
          env_BASE_URL := None |}
  = Int false 3000
  /\ BASE_URL {| env_PORT := Some (160%N :: units_of "03000x/tcp");
                 env_BASE_URL := None |}
     = Some (units_of "http://localhost:3000").
Proof.
  destruct (@port_reads_leading_digits
              {| env_PORT := Some (160%N :: units_of "03000x/tcp");
                 env_BASE_URL := None |}
              [160%N] (units_of "03000") (units_of "x/tcp")
              eq_refl eq_refl) as [P B].
  - discriminate.
  - reflexivity.
  - split; [reflexivity | discriminate].
  - split; [exact P|]. apply B; [vm_compute; discriminate | reflexivity].
Defined.

(** *** Printing a port and reading it back *)

Lemma uint_units_are_digits (d : Decimal.uint) :
  forallb is_decimal_digit (units_of (NilEmpty.string_of_uint d)) = true.
Proof. induction d; simpl; auto. Qed.

Lemma decimal_value_acc (d : Decimal.uint) (acc : positive) :
  fold_left (fun a c => (a * 10 + (c - 48))%N)
    (units_of (NilEmpty.string_of_uint d)) (Npos acc)
  = Npos (Pos.of_uint_acc d acc).
Proof.
  unfold units_of. revert acc. induction d; intros acc;
    cbn [NilEmpty.string_of_uint list_ascii_of_string map fold_left
         Pos.of_uint_acc];
    [reflexivity | rewrite <- IHd; f_equal ..];
    match goal with
    | |- context [N_of_ascii ?c] =>
        let v := eval vm_compute in (N_of_ascii c) in
        change (N_of_ascii c) with v
    end; lia.
Qed.

Lemma decimal_value_uint (d : Decimal.uint) :
  decimal_value (units_of (NilEmpty.string_of_uint d)) = N.of_uint d.
Proof.
  unfold decimal_value, N.of_uint.
  induction d;
    [reflexivity | exact IHd | apply (decimal_value_acc d) ..].
Qed.

Lemma to_string_units (n : N) :
  exists d ds,
    units_of (to_string n) = d :: ds
    /\ forallb is_decimal_digit (d :: ds) = true
    /\ decimal_value (d :: ds) = n.
Proof.
  unfold to_string.
  assert (Nn : N.to_uint n <> Decimal.Nil).
  { destruct n; [discriminate | apply DecimalPos.Unsigned.to_uint_nonnil]. }
  assert (E : NilZero.string_of_uint (N.to_uint n)
              = NilEmpty.string_of_uint (N.to_uint n)).
  { unfold NilZero.string_of_uint. destruct (N.to_uint n); congruence. }
  rewrite E.
  pose proof (uint_units_are_digits (N.to_uint n)) as Hd.
  pose proof (decimal_value_uint (N.to_uint n)) as Hv.
  rewrite DecimalN.Unsigned.of_to in Hv.
  destruct (units_of (NilEmpty.string_of_uint (N.to_uint n)))
    as [|d ds] eqn:L.
  - destruct (N.to_uint n); try discriminate; now elim Nn.
  - now exists d, ds.
Qed.

(** X13: printing and reading agree.  When [PORT] holds the decimal text of
    a natural number [n], as [to_string] prints it, the port is [n] for
    every [n] up to [2^53] (beyond, it is a rounded Number that is not
    computed); and unless [BASE_URL] is set, the advertised base URL is then
    "http://localhost:" followed by that same text. *)
Theorem port_round_trip (env : startup_env) (n : N) :
  env_PORT env = Some (units_of (to_string n)) ->
  PORT env = (if (n <=? exact_bound)%N then Int false n else Beyond)
  /\ ((n <= exact_bound)%N ->
      set_and_filled (env_BASE_URL env) = None ->
      BASE_URL env
      = Some (units_of "http://localhost:" ++ units_of (to_string n))%list).
Proof.
  intros Hp.
  destruct (to_string_units n) as (d & ds & L & Hd & Hv).
  assert (P : PORT env
              = (if (n <=? exact_bound)%N then Int false n else Beyond)).
  { unfold PORT. rewrite Hp, L, filled_is_set.
    assert (Q : parseInt ([] ++ (d :: ds) ++ [])
                = if (decimal_value (d :: ds) <=? exact_bound)%N
                  then Int false (decimal_value (d :: ds)) else Beyond)
      by (apply parseInt_digits;
          [reflexivity | discriminate | exact Hd | exact I]).
    cbn [app] in Q. rewrite app_nil_r in Q. now rewrite Q, Hv. }
  split; [exact P|].
  intros Le B. unfold BASE_URL. rewrite B, P.
  apply N.leb_le in Le. rewrite Le. unfold number_text. now rewrite Le.
Qed.

Lemma port_round_trip_witness :
  PORT {| env_PORT := Some (units_of "65535"); env_BASE_URL := None |}
  = Int false 65535
  /\ BASE_URL {| env_PORT := Some (units_of "65535"); env_BASE_URL := None |}
     = Some (units_of "http://localhost:65535").
Proof.
  destruct (@port_round_trip
              {| env_PORT := Some (units_of "65535"); env_BASE_URL := None |}
              65535 eq_refl) as [P B].
  split; [exact P|]. apply B; [vm_compute; discriminate | reflexivity].
Defined.
